(** * A shallow embedding of [app.py]: the [/analyze] endpoint

    The service accepts a JSON body, trims the [content] text, asks a
    language model for a summary, searches the web for related pages with
    a bounded retry, and assembles a JSON answer.

    Python values coming from JSON are embedded as the inductive type
    [pyvalue]; Python [str] is a sequence of Unicode code points.  The
    outside world (the inbound request, the completion API, the search
    API) is a record of oracles; the outbound calls and the log records
    are collected in an explicit state threaded through a small
    state-and-exception monad. *)

From Stdlib Require Import String Ascii ZArith NArith Bool List Lia.
Import ListNotations.

Set Warnings "-register-all".
Local Open Scope Z_scope.

(** ** Python strings *)

(** A [str] is a sequence of code points. *)
Definition pystr := list N.

(** An ASCII literal of the source, as a [str]. *)
Definition lit (s : string) : pystr :=
  map N_of_ascii (list_ascii_of_string s).

Definition pystr_eq_dec : forall s t : pystr, {s = t} + {s <> t} :=
  list_eq_dec N.eq_dec.

Definition pystr_eqb (s t : pystr) : bool :=
  if pystr_eq_dec s t then true else false.

(** [str.isspace] on one code point: the characters [str.strip()] removes
    when called without argument. *)
Definition py_isspace (c : N) : bool :=
  ((9 <=? c) && (c <=? 13)          (* \t \n \v \f \r *)
   || (28 <=? c) && (c <=? 32)      (* FS GS RS US and the space *)
   || (c =? 133) || (c =? 160)      (* NEL, no-break space *)
   || (c =? 5760)                   (* U+1680 *)
   || (8192 <=? c) && (c <=? 8202)  (* U+2000 .. U+200A *)
   || (c =? 8232) || (c =? 8233)    (* U+2028, U+2029 *)
   || (c =? 8239) || (c =? 8287)    (* U+202F, U+205F *)
   || (c =? 12288))%N.              (* U+3000 *)

Fixpoint lstrip (s : pystr) : pystr :=
  match s with
  | [] => []
  | c :: s' => if py_isspace c then lstrip s' else s
  end.

Definition rstrip (s : pystr) : pystr := rev (lstrip (rev s)).

(** [s.strip()] *)
Definition strip (s : pystr) : pystr := rstrip (lstrip s).

(** ** Python values *)

(** The values [json] hands to the program.  JSON numerals are the
    integer ones. *)
Inductive pyvalue : Type :=
| PNone
| PBool (b : bool)
| PInt (z : Z)
| PStr (s : pystr)
| PList (l : list pyvalue)
| PDict (d : list (pystr * pyvalue)).

(** Exception classes; [RequestException] stands for itself and all its
    subclasses in [requests]. *)
Inductive exn : Type :=
| RequestException
| AttributeError
| TypeError
| ValueError
| KeyError
| IndexError
| RecursionError
| OtherException.

Inductive result (A : Type) : Type :=
| Return (a : A)
| Raise (e : exn).
Arguments Return {A} a.
Arguments Raise {A} e.

(** Truth value of an object, as tested by [not x] and [x or y]. *)
Definition truthy (v : pyvalue) : bool :=
  match v with
  | PNone => false
  | PBool b => b
  | PInt z => negb (z =? 0)
  | PStr s => match s with [] => false | _ => true end
  | PList l => match l with [] => false | _ => true end
  | PDict d => match d with [] => false | _ => true end
  end.

(** Lookup in the association list of a [dict]. *)
Fixpoint dict_lookup (k : pystr) (d : list (pystr * pyvalue)) : option pyvalue :=
  match d with
  | [] => None
  | (k', v) :: d' => if pystr_eqb k' k then Some v else dict_lookup k d'
  end.

(** [obj.get(k, default)]: only a [dict] has the method. *)
Definition py_get (obj : pyvalue) (k : pystr) (default : pyvalue) : result pyvalue :=
  match obj with
  | PDict d => Return (match dict_lookup k d with Some v => v | None => default end)
  | _ => Raise AttributeError
  end.

(** [obj[k]] with a [str] subscript. *)
Definition py_getitem (obj : pyvalue) (k : pystr) : result pyvalue :=
  match obj with
  | PDict d => match dict_lookup k d with Some v => Return v | None => Raise KeyError end
  | _ => Raise TypeError
  end.

(** [obj[0]] *)
Definition py_getitem0 (obj : pyvalue) : result pyvalue :=
  match obj with
  | PList (x :: _) => Return x
  | PList [] => Raise IndexError
  | PStr (c :: _) => Return (PStr [c])
  | PStr [] => Raise IndexError
  | PDict _ => Raise KeyError
  | _ => Raise TypeError
  end.

(** [obj.strip()]: only a [str] has the method. *)
Definition py_strip (obj : pyvalue) : result pystr :=
  match obj with
  | PStr s => Return (strip s)
  | _ => Raise AttributeError
  end.

(** The items a [for] loop over [obj] visits. *)
Definition py_iter (obj : pyvalue) : result (list pyvalue) :=
  match obj with
  | PList l => Return l
  | PDict d => Return (map (fun kv => PStr (fst kv)) d)
  | PStr s => Return (map (fun c => PStr [c]) s)
  | _ => Raise TypeError
  end.

Definition isinstance_dict (v : pyvalue) : bool :=
  match v with PDict _ => true | _ => false end.

(** ** Exceptions without state: the [result] monad *)

Definition rbind {A B} (r : result A) (k : A -> result B) : result B :=
  match r with
  | Return a => k a
  | Raise e => Raise e
  end.

Notation "'let*' x ':=' r 'in' k" := (rbind r (fun x => k))
  (at level 10, x name, r at level 100, k at level 200).

Fixpoint mapM {A B} (f : A -> result B) (l : list A) : result (list B) :=
  match l with
  | [] => Return []
  | x :: l' =>
      let* y := f x in
      let* ys := mapM f l' in
      Return (y :: ys)
  end.

(** ** The outside world and the state *)

Inductive level : Type := ERROR | WARNING.

(** The call sites of [logging], by the message they write. *)
Inductive log_site : Type :=
| GptSummarizationError     (* "GPT summarization error: ..." *)
| SearchRetryLimitReached   (* "Search retry limit reached for query: ..." *)
| SearchRequestFailed       (* "Search API request failed: ..., retrying..." *)
| ErrorSummarizingText      (* "Error summarizing text: ..." *)
| ErrorFetchingSources      (* "Error fetching alternative sources: ..." *)
| UnhandledError.           (* "Unhandled error in /analyze endpoint: ..." *)

(** What the program does to the world, in the order it does it. *)
Inductive event : Type :=
| ChatCompletion (prompt : pystr) (max_tokens : Z)
| SearchRequest (q : pystr) (count : Z)
| Log (lvl : level) (site : log_site).

Definition is_search (e : event) : bool :=
  match e with SearchRequest _ _ => true | _ => false end.

(** Number of outbound search requests in a trace. *)
Definition search_requests (t : list event) : nat :=
  length (filter is_search t).

(** The module-level settings read from [config.yaml]. *)
Record config : Type := {
  MAX_TOKENS : Z;
  SEARCH_RESULT_COUNT : Z;
  SEARCH_RETRY_LIMIT : Z
}.

(** The defaults of [config.get]. *)
Definition default_config : config :=
  {| MAX_TOKENS := 100; SEARCH_RESULT_COUNT := 5; SEARCH_RETRY_LIMIT := 3 |}.

(** The collaborators.  [get_json] is the outcome of [request.get_json()].
    [openai_create prompt max_tokens] is the outcome of
    [openai.ChatCompletion.create] for the user message [prompt].
    [requests_get q count n] is the outcome of the three lines
    [requests.get], [raise_for_status], [response.json()] for the [n]-th
    outbound search request (counted from 0): the decoded body, or the
    exception one of them raises.
    [recursion_depth] is the interpreter's stack: how many activations of
    [search_alternative_sources] it admits below the first one, each with
    room for the calls its body makes; the recursive call that would need
    one more raises [RecursionError]. *)
Record world : Type := {
  get_json : result pyvalue;
  openai_create : pystr -> Z -> result pyvalue;
  requests_get : pystr -> Z -> nat -> result pyvalue;
  recursion_depth : nat
}.

(** Computations that raise and that extend the trace. *)
Definition M (A : Type) : Type := list event -> result A * list event.

Definition ret {A} (a : A) : M A := fun t => (Return a, t).

Definition raise {A} (e : exn) : M A := fun t => (Raise e, t).

Definition bind {A B} (m : M A) (k : A -> M B) : M B :=
  fun t => match m t with
           | (Return a, t') => k a t'
           | (Raise e, t') => (Raise e, t')
           end.

Definition lift {A} (r : result A) : M A := fun t => (r, t).

Definition emit (e : event) : M unit := fun t => (Return tt, t ++ [e]).

(** [try: m except Exception as e: h e] *)
Definition try_except {A} (m : M A) (h : exn -> M A) : M A :=
  fun t => match m t with
           | (Raise e, t') => h e t'
           | r => r
           end.

Notation "x <- m ;; k" := (bind m (fun x => k))
  (at level 61, m at next level, right associativity).
Notation "m ;; k" := (bind m (fun _ => k))
  (at level 61, right associativity).

Definition logging (lvl : level) (site : log_site) : M unit := emit (Log lvl site).

(** ** The program *)

(** One entry of [links]: the dict literal with the keys [title], [url]
    and [snippet]. *)
Record link : Type := {
  title : pyvalue;
  url : pyvalue;
  snippet : pyvalue
}.

(** A dict key up to the equality [dict] uses: [True == 1] and
    [False == 0], everything else equals only itself.  Lists and dicts
    are unhashable. *)
Inductive key : Type :=
| KNone
| KNum (z : Z)
| KStr (s : pystr).

Definition key_eq_dec : forall a b : key, {a = b} + {a <> b}.
Proof.
  decide equality; [apply Z.eq_dec | apply pystr_eq_dec].
Defined.

Definition key_eqb (a b : key) : bool :=
  if key_eq_dec a b then true else false.

(** [hash(v)], or [None] where Python raises "unhashable type". *)
Definition hash_key (v : pyvalue) : option key :=
  match v with
  | PNone => Some KNone
  | PBool b => Some (KNum (if b then 1 else 0))
  | PInt z => Some (KNum z)
  | PStr s => Some (KStr s)
  | PList _ | PDict _ => None
  end.

(** [d[k] = v] on an insertion-ordered dict: an existing key keeps its
    place and takes the new value, a new key goes to the end. *)
Fixpoint dict_setitem (k : key) (v : link) (d : list (key * link)) : list (key * link) :=
  match d with
  | [] => [(k, v)]
  | (k', v') :: d' =>
      if key_eqb k' k then (k', v) :: d' else (k', v') :: dict_setitem k v d'
  end.

(** [{link['url']: link for link in links}], started from [d]. *)
Fixpoint dict_comprehension (links : list link) (d : list (key * link))
  : result (list (key * link)) :=
  match links with
  | [] => Return d
  | l :: rest =>
      match hash_key (url l) with
      | None => Raise TypeError
      | Some k => dict_comprehension rest (dict_setitem k l d)
      end
  end.

(** [list({link['url']: link for link in links}.values())] *)
Definition unique_links (links : list link) : result (list link) :=
  let* d := dict_comprehension links [] in
  Return (map snd d).

(** The element of the list comprehension for one provider item. *)
Definition make_link (item : pyvalue) : result link :=
  let* name := py_get item (lit "name") PNone in
  let* u := py_get item (lit "url") PNone in
  let* s := py_get item (lit "snippet") PNone in
  Return {| title := name; url := u; snippet := s |}.

(** The provider's result list:
    [search_results.get("webPages", {}).get("value", [])]. *)
Definition provider_items (search_results : pyvalue) : result (list pyvalue) :=
  let* webPages := py_get search_results (lit "webPages") (PDict []) in
  let* value := py_get webPages (lit "value") (PList []) in
  py_iter value.

(** [links = [ {...} for result in ... ]] *)
Definition build_links (search_results : pyvalue) : result (list link) :=
  let* items := provider_items search_results in
  mapM make_link items.

(** [def preprocess_text(text): return text.strip()] *)
Definition preprocess_text (text : pyvalue) : result pystr := py_strip text.

(** [x or []] on a list. *)
Definition or_empty (x : list link) : list link :=
  match x with
  | [] => []
  | _ => x
  end.

Definition link_to_py (l : link) : pyvalue :=
  PDict [(lit "title", title l); (lit "url", url l); (lit "snippet", snippet l)].

(** A Flask return value: the [jsonify] body and the status code. *)
Definition response : Type := (pyvalue * Z)%type.

Definition error_body (msg : string) : pyvalue :=
  PDict [(lit "error", PStr (lit msg))].

Definition success_body (summary : pystr) (metadata : pyvalue)
  (alternative_sources : list link) : pyvalue :=
  PDict [(lit "summary", PStr summary);
         (lit "metadata", metadata);
         (lit "alternative_sources", PList (map link_to_py alternative_sources))].

(** [response['choices'][0]['message']['content']] *)
Definition message_content (response : pyvalue) : result pyvalue :=
  let* choices := py_getitem response (lit "choices") in
  let* choice := py_getitem0 choices in
  let* message := py_getitem choice (lit "message") in
  py_getitem message (lit "content").

Section App.

Variable cfg : config.
Variable w : world.

(** [def summarize_text(text)] *)
Definition summarize_text (text : pystr) : M pystr :=
  try_except
    (let prompt := lit "Summarize and analyze: " ++ text in
     emit (ChatCompletion prompt (MAX_TOKENS cfg)) ;;
     response <- lift (openai_create w prompt (MAX_TOKENS cfg)) ;;
     summary <- lift (let* content := message_content response in
                      py_strip content) ;;
     match summary with
     | [] => raise ValueError
     | _ => ret summary
     end)
    (fun e => logging ERROR GptSummarizationError ;; raise e).

(** The [try] block of [search_alternative_sources], from the request to
    the [return]. *)
Definition search_once (query : pystr) (t : list event) : result (list link) :=
  let* search_results :=
    requests_get w query (SEARCH_RESULT_COUNT cfg) (search_requests t) in
  let* links := build_links search_results in
  unique_links links.

(** The body of [search_alternative_sources] in an activation below
    which the stack admits [depth] more: the recursive call of the
    [except] branch (line 96) is made when [depth] allows it and raises
    [RecursionError] otherwise, after the warning of line 95. *)
Fixpoint search_alternative_sources_at (depth : nat) (query : pystr)
  (retry_count : Z) (t : list event) : result (list link) * list event :=
  if Z_ge_lt_dec retry_count (SEARCH_RETRY_LIMIT cfg) then
    (Return [], t ++ [Log ERROR SearchRetryLimitReached])
  else
    match search_once query t with
    | Raise RequestException =>
        match depth with
        | O =>
            (Raise RecursionError,
             t ++ [SearchRequest query (SEARCH_RESULT_COUNT cfg);
                   Log WARNING SearchRequestFailed])
        | S depth' =>
            search_alternative_sources_at depth' query (retry_count + 1)
              (t ++ [SearchRequest query (SEARCH_RESULT_COUNT cfg);
                     Log WARNING SearchRequestFailed])
        end
    | r => (r, t ++ [SearchRequest query (SEARCH_RESULT_COUNT cfg)])
    end.

(** [def search_alternative_sources(query, retry_count=0)], called from
    outside. *)
Definition search_alternative_sources (query : pystr) (retry_count : Z)
  (t : list event) : result (list link) * list event :=
  search_alternative_sources_at (recursion_depth w) query retry_count t.

(** [def analyze_content()], the handler of [POST /analyze]. *)
Definition analyze_content : M response :=
  try_except
    (data <- lift (get_json w) ;;
     if negb (truthy data) then
       ret (error_body "Invalid or missing JSON body", 400)
     else
       text <- lift (let* content := py_get data (lit "content") (PStr []) in
                     preprocess_text content) ;;
       metadata <- lift (py_get data (lit "metadata") (PDict [])) ;;
       match text with
       | [] => ret (error_body "No content provided", 400)
       | _ =>
           s <- try_except
                  (summary <- summarize_text text ;; ret (inr summary))
                  (fun e => logging ERROR ErrorSummarizingText ;;
                            ret (inl (error_body "Failed to summarize content", 500))) ;;
           match s with
           | inl early => ret early
           | inr summary =>
               alternative_sources <-
                 try_except
                   (found <- search_alternative_sources summary 0 ;;
                    ret (or_empty found))
                   (fun e => logging ERROR ErrorFetchingSources ;; ret []) ;;
               let metadata :=
                 if isinstance_dict metadata then metadata else PDict [] in
               ret (success_body summary metadata alternative_sources, 200)
           end
       end)
    (fun e => logging ERROR UnhandledError ;;
              ret (error_body "An unexpected error occurred", 500)).

End App.

(** ** Start-up: the module-level code *)

(** What [open(config_path)] and [yaml.safe_load] give [load_config]: the
    document, [FileNotFoundError], or another exception.  Documents are
    the YAML documents whose values are those of [pyvalue]. *)
Inductive load_outcome : Type :=
| Loaded (document : pyvalue)
| FileNotFound
| LoadRaises (e : exn).

(** The log records written while the module is imported. *)
Inductive startup_log : Type :=
| ConfigFileNotFound   (* error: "Configuration file not found at ..." *)
| OpenAIKeyMissing     (* warning: "OpenAI API key is missing. ..." *)
| BingKeyMissing.      (* warning: "Bing API key is missing. ..." *)

(** [def load_config(config_path="config.yaml")] *)
Definition load_config (o : load_outcome) : result pyvalue * list startup_log :=
  match o with
  | Loaded document => (Return document, [])
  | FileNotFound => (Return (PDict []), [ConfigFileNotFound])
  | LoadRaises e => (Raise e, [])
  end.

(** [MAX_TOKENS], [SEARCH_RESULT_COUNT], [SEARCH_RETRY_LIMIT] as the
    three [config.get] lines compute them. *)
Definition read_settings (config : pyvalue) : result (pyvalue * pyvalue * pyvalue) :=
  let* max_tokens := py_get config (lit "max_tokens") (PInt 100) in
  let* search_result_count := py_get config (lit "search_result_count") (PInt 5) in
  let* search_retry_limit := py_get config (lit "search_retry_limit") (PInt 3) in
  Return (max_tokens, search_result_count, search_retry_limit).

(** The two [if not ...key] warnings. *)
Definition key_warnings (openai_api_key bing_api_key : pystr) : list startup_log :=
  (if truthy (PStr openai_api_key) then [] else [OpenAIKeyMissing]) ++
  (if truthy (PStr bing_api_key) then [] else [BingKeyMissing]).

(** The module body up to the key warnings, given the outcome of reading
    the file and the two environment variables ([os.getenv(..., '')]). *)
Definition startup (o : load_outcome) (openai_api_key bing_api_key : pystr)
  : result (pyvalue * pyvalue * pyvalue) * list startup_log :=
  match load_config o with
  | (Raise e, log) => (Raise e, log)
  | (Return config, log) =>
      match read_settings config with
      | Raise e => (Raise e, log)
      | Return settings => (Return settings, log ++ key_warnings openai_api_key bing_api_key)
      end
  end.

(** The settings as the integers the rest of the program compares and
    passes on, where they are integers. *)
Definition settings_config (settings : pyvalue * pyvalue * pyvalue) : option config :=
  match settings with
  | (PInt a, PInt b, PInt c) =>
      Some {| MAX_TOKENS := a; SEARCH_RESULT_COUNT := b; SEARCH_RETRY_LIMIT := c |}
  | _ => None
  end.

(** ** Vocabulary of the properties *)

Definition all_space (s : pystr) : bool := forallb py_isspace s.

Definition starts_with_space (s : pystr) : bool :=
  match s with
  | [] => false
  | c :: _ => py_isspace c
  end.

Definition ends_with_space (s : pystr) : bool := starts_with_space (rev s).

(** The dedup key of a link, where it has one. *)
Definition url_key (l : link) : option key := hash_key (url l).

(** Two links carry the same URL, as the dict sees it. *)
Definition same_url (a b : link) : bool :=
  match url_key a, url_key b with
  | Some x, Some y => key_eqb x y
  | _, _ => false
  end.

Definition url_is_none (l : link) : bool :=
  match url l with
  | PNone => true
  | _ => false
  end.

(** Among the entries with one URL, [out] holds the first of [links]. *)
Definition first_seen_kept (links out : list link) : Prop :=
  forall l, In l links -> find (same_url l) out = find (same_url l) links.

(** Among the entries with one URL, [out] holds the last of [links]. *)
Definition last_seen_kept (links out : list link) : Prop :=
  forall l, In l links -> find (same_url l) out = find (same_url l) (rev links).

(** Every URL of [links] occurs exactly once in [out]. *)
Definition each_url_once (links out : list link) : Prop :=
  forall l, In l links -> length (filter (same_url l) out) = 1%nat.

(** What the model's answer becomes: the trimmed content, or the
    exception of the API call, of a subscript, or of [strip]. *)
Definition model_summary (cfg : config) (w : world) (text : pystr) : result pystr :=
  let* response :=
    openai_create w (lit "Summarize and analyze: " ++ text) (MAX_TOKENS cfg) in
  let* content := message_content response in
  py_strip content.

(** The runs of [search_alternative_sources] with [depth] activations
    left, one constructor per path through its body. *)
Inductive search_run (cfg : config) (w : world) (query : pystr)
  : nat -> Z -> list event -> result (list link) * list event -> Prop :=
| run_limit depth retry_count t :
    retry_count >= SEARCH_RETRY_LIMIT cfg ->
    search_run cfg w query depth retry_count t
      (Return [], t ++ [Log ERROR SearchRetryLimitReached])
| run_retry depth retry_count t final :
    retry_count < SEARCH_RETRY_LIMIT cfg ->
    search_once cfg w query t = Raise RequestException ->
    search_run cfg w query depth (retry_count + 1)
      (t ++ [SearchRequest query (SEARCH_RESULT_COUNT cfg);
             Log WARNING SearchRequestFailed]) final ->
    search_run cfg w query (S depth) retry_count t final
| run_overflow retry_count t :
    retry_count < SEARCH_RETRY_LIMIT cfg ->
    search_once cfg w query t = Raise RequestException ->
    search_run cfg w query O retry_count t
      (Raise RecursionError,
       t ++ [SearchRequest query (SEARCH_RESULT_COUNT cfg);
             Log WARNING SearchRequestFailed])
| run_done depth retry_count t r :
    retry_count < SEARCH_RETRY_LIMIT cfg ->
    search_once cfg w query t = r ->
    r <> Raise RequestException ->
    search_run cfg w query depth retry_count t
      (r, t ++ [SearchRequest query (SEARCH_RESULT_COUNT cfg)]).

(** The link carries the key [k]. *)
Definition has_key (k : key) (l : link) : bool :=
  match url_key l with
  | Some k' => key_eqb k k'
  | None => false
  end.

(** The value a dict holds under [k]. *)
Fixpoint dict_find (k : key) (d : list (key * link)) : option link :=
  match d with
  | [] => None
  | (k', v) :: d' => if key_eqb k k' then Some v else dict_find k d'
  end.

(** Every value sits under the key of its own URL. *)
Definition well_keyed (d : list (key * link)) : Prop :=
  Forall (fun kv => url_key (snd kv) = Some (fst kv)) d.

(** ** Concrete requests and collaborators *)

(** A completion whose only choice carries [content]. *)
Definition chat_answer (content : pyvalue) : pyvalue :=
  PDict [(lit "choices",
          PList [PDict [(lit "message", PDict [(lit "content", content)])]])].

(** A search answer whose [webPages.value] is [items]. *)
Definition provider_answer (items : list pyvalue) : pyvalue :=
  PDict [(lit "webPages", PDict [(lit "value", PList items)])].

Definition provider_item (name u : string) : pyvalue :=
  PDict [(lit "name", PStr (lit name)); (lit "url", PStr (lit u))].

Definition item_without_url (name : string) : pyvalue :=
  PDict [(lit "name", PStr (lit name))].

Definition text_link (name u : string) : link :=
  {| title := PStr (lit name); url := PStr (lit u); snippet := PNone |}.

Definition link_without_url (name : string) : link :=
  {| title := PStr (lit name); url := PNone; snippet := PNone |}.

Definition news_request (metadata : pyvalue) : pyvalue :=
  PDict [(lit "content", PStr (lit "  Breaking news about X.  "));
         (lit "metadata", metadata)].

(** The provider lists the URL [https://a.example] twice. *)
Definition dup_items : list pyvalue :=
  [provider_item "First" "https://a.example";
   provider_item "Other" "https://b.example";
   provider_item "Second" "https://a.example"].

Definition dup_links : list link :=
  [text_link "First" "https://a.example";
   text_link "Other" "https://b.example";
   text_link "Second" "https://a.example"].

(** Two of the provider's three items have no [url]. *)
Definition urlless_items : list pyvalue :=
  [item_without_url "One"; provider_item "Other" "https://b.example";
   item_without_url "Two"].

(** The stack of the concrete worlds: 987 activations below the first. *)
Definition stack_depth : nat := 987.

(** Summarizer and search both answer; the first [failures] search
    requests fail in transport. *)
Definition working_world (body : pyvalue) (failures : nat) (items : list pyvalue)
  : world :=
  {| get_json := Return body;
     openai_create := fun _ _ => Return (chat_answer (PStr (lit " X happened. ")));
     requests_get := fun _ _ n =>
       if (n <? failures)%nat then Raise RequestException
       else Return (provider_answer items);
     recursion_depth := stack_depth |}.

(** The summarizer answers; every search request fails in transport. *)
Definition search_down_world (body : pyvalue) : world :=
  {| get_json := Return body;
     openai_create := fun _ _ => Return (chat_answer (PStr (lit " X happened. ")));
     requests_get := fun _ _ _ => Raise RequestException;
     recursion_depth := stack_depth |}.

(** The summarizer answers; the search answer is a list, not an object. *)
Definition search_malformed_world (body : pyvalue) : world :=
  {| get_json := Return body;
     openai_create := fun _ _ => Return (chat_answer (PStr (lit " X happened. ")));
     requests_get := fun _ _ _ => Return (PList []);
     recursion_depth := stack_depth |}.

(** The model answers with blanks only. *)
Definition blank_model_world (body : pyvalue) : world :=
  {| get_json := Return body;
     openai_create := fun _ _ => Return (chat_answer (PStr (lit "   ")));
     requests_get := fun _ _ _ => Return (provider_answer dup_items);
     recursion_depth := stack_depth |}.

(** What the finder returns for [dup_items] and for [urlless_items]. *)
Definition dup_out : list link :=
  [text_link "Second" "https://a.example"; text_link "Other" "https://b.example"].

Definition urlless_out : list link :=
  [link_without_url "Two"; text_link "Other" "https://b.example"].

(** The trace of a [/analyze] call up to the return of the summarizer. *)
Definition news_summarized : list event :=
  [ChatCompletion (lit "Summarize and analyze: Breaking news about X.") 100].

(** The [try] block of [search_alternative_sources] for the [n]-th
    outbound search request. *)
Definition attempt (cfg : config) (w : world) (query : pystr) (n : nat)
  : result (list link) :=
  let* search_results := requests_get w query (SEARCH_RESULT_COUNT cfg) n in
  let* links := build_links search_results in
  unique_links links.

(** The events of [k] requests that failed in transport. *)
Fixpoint failed_attempts (cfg : config) (query : pystr) (k : nat) : list event :=
  match k with
  | O => []
  | S k' => [SearchRequest query (SEARCH_RESULT_COUNT cfg);
             Log WARNING SearchRequestFailed] ++ failed_attempts cfg query k'
  end.

(** The dedup keys of the links that have one, in order. *)
Definition link_keys (links : list link) : list key :=
  flat_map (fun l => match url_key l with Some k => [k] | None => [] end) links.

Definition key_mem (k : key) (ks : list key) : bool := existsb (key_eqb k) ks.

(** The distinct keys of a list, each at the place of its first
    occurrence. *)
Fixpoint first_occurrences (ks : list key) : list key :=
  match ks with
  | [] => []
  | k :: rest => k :: filter (fun k' => negb (key_eqb k k')) (first_occurrences rest)
  end.

Definition is_completion (e : event) : bool :=
  match e with ChatCompletion _ _ => true | _ => false end.

(** Number of completion calls in a trace. *)
Definition completion_calls (t : list event) : nat :=
  length (filter is_completion t).

(** The [metadata] of a 200 answer for the request object [d]. *)
Definition response_metadata (d : list (pystr * pyvalue)) : pyvalue :=
  match dict_lookup (lit "metadata") d with
  | Some m => if isinstance_dict m then m else PDict []
  | None => PDict []
  end.

(** The paths through [analyze_content], one constructor per [return]
    and per way to reach it. *)
Inductive handled (cfg : config) (w : world) (t : list event)
  : result response * list event -> Prop :=
| handled_body_raises e :
    get_json w = Raise e ->
    handled cfg w t
      (Return (error_body "An unexpected error occurred", 500),
       t ++ [Log ERROR UnhandledError])
| handled_body_falsy data :
    get_json w = Return data ->
    truthy data = false ->
    handled cfg w t (Return (error_body "Invalid or missing JSON body", 400), t)
| handled_body_not_dict data :
    get_json w = Return data ->
    truthy data = true ->
    isinstance_dict data = false ->
    handled cfg w t
      (Return (error_body "An unexpected error occurred", 500),
       t ++ [Log ERROR UnhandledError])
| handled_content_not_str d v :
    get_json w = Return (PDict d) ->
    d <> [] ->
    dict_lookup (lit "content") d = Some v ->
    (forall s, v <> PStr s) ->
    handled cfg w t
      (Return (error_body "An unexpected error occurred", 500),
       t ++ [Log ERROR UnhandledError])
| handled_no_content d :
    get_json w = Return (PDict d) ->
    d <> [] ->
    match dict_lookup (lit "content") d with
    | None => True
    | Some v => exists c, v = PStr c /\ all_space c = true
    end ->
    handled cfg w t (Return (error_body "No content provided", 400), t)
| handled_summarizer_raises d c e :
    get_json w = Return (PDict d) ->
    d <> [] ->
    dict_lookup (lit "content") d = Some (PStr c) ->
    all_space c = false ->
    model_summary cfg w (strip c) = Raise e \/
      (model_summary cfg w (strip c) = Return [] /\ e = ValueError) ->
    handled cfg w t
      (Return (error_body "Failed to summarize content", 500),
       t ++ [ChatCompletion (lit "Summarize and analyze: " ++ strip c) (MAX_TOKENS cfg);
             Log ERROR GptSummarizationError;
             Log ERROR ErrorSummarizingText])
| handled_success d c summary found t2 :
    get_json w = Return (PDict d) ->
    d <> [] ->
    dict_lookup (lit "content") d = Some (PStr c) ->
    all_space c = false ->
    model_summary cfg w (strip c) = Return summary ->
    summary <> [] ->
    search_alternative_sources cfg w summary 0
      (t ++ [ChatCompletion (lit "Summarize and analyze: " ++ strip c) (MAX_TOKENS cfg)])
      = (Return found, t2) ->
    handled cfg w t
      (Return (success_body summary (response_metadata d) found, 200), t2)
| handled_search_raises d c summary e t2 :
    get_json w = Return (PDict d) ->
    d <> [] ->
    dict_lookup (lit "content") d = Some (PStr c) ->
    all_space c = false ->
    model_summary cfg w (strip c) = Return summary ->
    summary <> [] ->
    search_alternative_sources cfg w summary 0
      (t ++ [ChatCompletion (lit "Summarize and analyze: " ++ strip c) (MAX_TOKENS cfg)])
      = (Raise e, t2) ->
    handled cfg w t
      (Return (success_body summary (response_metadata d) [], 200),
       t2 ++ [Log ERROR ErrorFetchingSources]).

(** The events the finder produces for [query]: requests for that query
    with the configured count, and its two logs. *)
Definition finder_event (cfg : config) (query : pystr) (e : event) : Prop :=
  match e with
  | SearchRequest q count => q = query /\ count = SEARCH_RESULT_COUNT cfg
  | ChatCompletion _ _ => False
  | Log lvl site =>
      (lvl = WARNING /\ site = SearchRequestFailed) \/
      (lvl = ERROR /\ site = SearchRetryLimitReached)
  end.

(** The value a configuration mapping gives a setting. *)
Definition setting_or (d : list (pystr * pyvalue)) (k : string) (default : Z) : pyvalue :=
  match dict_lookup (lit k) d with
  | Some v => v
  | None => PInt default
  end.

(** The summarizer answers; every search request gets [answer]. *)
Definition search_answer_world (body answer : pyvalue) : world :=
  {| get_json := Return body;
     openai_create := fun _ _ => Return (chat_answer (PStr (lit " X happened. ")));
     requests_get := fun _ _ _ => Return answer;
     recursion_depth := stack_depth |}.

Definition distinct_links : list link :=
  [text_link "First" "https://a.example"; text_link "Other" "https://b.example"].

(** A finder allowed seven retries on a stack that admits two more
    activations, with the search down. *)
Definition patient_config : config :=
  {| MAX_TOKENS := 100; SEARCH_RESULT_COUNT := 5; SEARCH_RETRY_LIMIT := 7 |}.

Definition shallow_world : world :=
  {| get_json := Return (news_request (PDict []));
     openai_create := fun _ _ => Return (chat_answer (PStr (lit " X happened. ")));
     requests_get := fun _ _ _ => Raise RequestException;
     recursion_depth := 2 |}.

(** ** Trimming *)

Lemma lstrip_split (s : pystr) :
  exists l, s = l ++ lstrip s /\ all_space l = true.
Proof.
  induction s as [|c s IH]; simpl.
  - exists []. split; reflexivity.
  - destruct (py_isspace c) eqn:Hc.
    + destruct IH as [l [Hs Hl]]. exists (c :: l). simpl.
      rewrite Hc, Hl. split; [f_equal; exact Hs | reflexivity].
    + exists []. split; reflexivity.
Qed.

Lemma lstrip_starts (s : pystr) : starts_with_space (lstrip s) = false.
Proof.
  induction s as [|c s IH]; simpl; [reflexivity|].
  destruct (py_isspace c) eqn:Hc; [exact IH | simpl; exact Hc].
Qed.

Lemma lstrip_id (s : pystr) : starts_with_space s = false -> lstrip s = s.
Proof.
  destruct s as [|c s]; simpl; [reflexivity|].
  intros ->. reflexivity.
Qed.

Lemma lstrip_all_space (s : pystr) : all_space s = true -> lstrip s = [].
Proof.
  induction s as [|c s IH]; simpl; [reflexivity|].
  destruct (py_isspace c); simpl; [exact IH | discriminate].
Qed.

Lemma all_space_rev (s : pystr) : all_space (rev s) = all_space s.
Proof.
  unfold all_space. induction s as [|c s IH]; simpl; [reflexivity|].
  rewrite forallb_app, IH. simpl. rewrite andb_true_r. apply andb_comm.
Qed.

Lemma rstrip_split (s : pystr) :
  exists r, s = rstrip s ++ r /\ all_space r = true.
Proof.
  unfold rstrip. destruct (lstrip_split (rev s)) as [l [Hs Hl]].
  exists (rev l). split.
  - rewrite <- rev_app_distr, <- Hs, rev_involutive. reflexivity.
  - rewrite all_space_rev. exact Hl.
Qed.

Lemma rstrip_ends (s : pystr) : ends_with_space (rstrip s) = false.
Proof.
  unfold ends_with_space, rstrip. rewrite rev_involutive. apply lstrip_starts.
Qed.

Lemma rstrip_id (s : pystr) : ends_with_space s = false -> rstrip s = s.
Proof.
  unfold ends_with_space, rstrip. intros H.
  rewrite (lstrip_id _ H). apply rev_involutive.
Qed.

(** Trimming on the right keeps a non-space first character in place. *)
Lemma rstrip_starts (s : pystr) :
  starts_with_space s = false -> starts_with_space (rstrip s) = false.
Proof.
  intros H. destruct (rstrip_split s) as [r [Hs Hr]].
  destruct (rstrip s) as [|c s'] eqn:E; [reflexivity|].
  rewrite Hs in H. simpl in *. exact H.
Qed.

Lemma strip_split (s : pystr) :
  exists l r, s = l ++ strip s ++ r /\ all_space l = true /\ all_space r = true.
Proof.
  unfold strip. destruct (lstrip_split s) as [l [Hs Hl]].
  destruct (rstrip_split (lstrip s)) as [r [Hs' Hr]].
  exists l, r. repeat split; try assumption.
  rewrite <- Hs'. exact Hs.
Qed.

Lemma strip_starts (s : pystr) : starts_with_space (strip s) = false.
Proof. unfold strip. apply rstrip_starts, lstrip_starts. Qed.

Lemma strip_ends (s : pystr) : ends_with_space (strip s) = false.
Proof. unfold strip. apply rstrip_ends. Qed.

Lemma strip_id (s : pystr) :
  starts_with_space s = false -> ends_with_space s = false -> strip s = s.
Proof.
  intros H1 H2. unfold strip. rewrite (lstrip_id _ H1). apply rstrip_id, H2.
Qed.

Lemma strip_idempotent (s : pystr) : strip (strip s) = strip s.
Proof. apply strip_id; [apply strip_starts | apply strip_ends]. Qed.

Lemma strip_all_space (s : pystr) : all_space s = true -> strip s = [].
Proof.
  intros H. unfold strip. rewrite (lstrip_all_space _ H). reflexivity.
Qed.

(** C7: [preprocess_text] succeeds on every text; what it returns is the
    input without a prefix and a suffix made of whitespace only, with the
    rest untouched; the result neither starts nor ends with whitespace; a
    text without whitespace at either end comes back unchanged; a text of
    whitespace only comes back empty. *)
Theorem preprocess_text_strips (s : pystr) :
  exists l r out,
    preprocess_text (PStr s) = Return out /\
    s = l ++ out ++ r /\
    all_space l = true /\ all_space r = true /\
    starts_with_space out = false /\ ends_with_space out = false /\
    (starts_with_space s = false -> ends_with_space s = false -> out = s) /\
    (all_space s = true -> out = []).
Proof.
  destruct (strip_split s) as [l [r [Hs [Hl Hr]]]].
  exists l, r, (strip s). repeat split; try assumption.
  - apply strip_starts.
  - apply strip_ends.
  - apply strip_id.
  - apply strip_all_space.
Qed.

(** ** The summarizer *)

Section Summarizer.

Variable cfg : config.
Variable w : world.

(** [summarize_text] in closed form: one completion call; a non-empty
    trimmed content is returned, anything else is logged and raised. *)
Lemma summarize_text_eq (text : pystr) (t : list event) :
  summarize_text cfg w text t =
  let t1 := t ++ [ChatCompletion (lit "Summarize and analyze: " ++ text) (MAX_TOKENS cfg)] in
  match model_summary cfg w text with
  | Return [] => (Raise ValueError, t1 ++ [Log ERROR GptSummarizationError])
  | Return summary => (Return summary, t1)
  | Raise e => (Raise e, t1 ++ [Log ERROR GptSummarizationError])
  end.
Proof.
  unfold summarize_text, model_summary, try_except, bind, lift, emit, logging, raise, ret.
  cbn zeta.
  destruct (openai_create w _ _) as [response|e]; cbn; [|reflexivity].
  destruct (message_content response) as [content|e]; cbn; [|reflexivity].
  destruct (py_strip content) as [[|c s]|e]; reflexivity.
Qed.

Lemma py_strip_returns (v : pyvalue) (s : pystr) :
  py_strip v = Return s -> strip s = s.
Proof.
  destruct v; cbn; try discriminate.
  intros [= <-]. apply strip_idempotent.
Qed.

Lemma model_summary_trimmed (text s : pystr) :
  model_summary cfg w text = Return s -> strip s = s.
Proof.
  unfold model_summary.
  destruct (openai_create w _ _) as [response|e]; cbn; [|discriminate].
  destruct (message_content response) as [content|e]; cbn; [|discriminate].
  apply py_strip_returns.
Qed.

Lemma summarize_text_returns (text summary : pystr) (t t' : list event) :
  summarize_text cfg w text t = (Return summary, t') ->
  summary <> [] /\ strip summary = summary.
Proof.
  intros H. rewrite summarize_text_eq in H. cbn zeta in H.
  destruct (model_summary cfg w text) as [[|c s]|e] eqn:E; try discriminate.
  injection H as <- _. split; [discriminate|].
  apply model_summary_trimmed with (text := text). exact E.
Qed.

(** C5: a summary [summarize_text] returns is non-empty and is its own
    trimming; when the content of the model's answer trims to the empty
    text, [summarize_text] raises ([ValueError], logged at error level)
    and returns nothing. *)
Theorem summarize_text_nonempty (text : pystr) (t : list event) :
  (forall summary t',
      summarize_text cfg w text t = (Return summary, t') ->
      summary <> [] /\ strip summary = summary) /\
  (forall response content,
      openai_create w (lit "Summarize and analyze: " ++ text) (MAX_TOKENS cfg)
        = Return response ->
      message_content response = Return (PStr content) ->
      strip content = [] ->
      summarize_text cfg w text t =
        (Raise ValueError,
         t ++ [ChatCompletion (lit "Summarize and analyze: " ++ text) (MAX_TOKENS cfg)]
           ++ [Log ERROR GptSummarizationError])).
Proof.
  split.
  - intros summary t' H. exact (summarize_text_returns _ _ _ _ H).
  - intros response content Hr Hc Hs. rewrite summarize_text_eq. cbn zeta.
    unfold model_summary. rewrite Hr. cbn. rewrite Hc. cbn. rewrite Hs.
    rewrite <- app_assoc. reflexivity.
Qed.

End Summarizer.

(** ** The alternative-source finder: the retry loop *)

Section Finder.

Variable cfg : config.
Variable w : world.

Lemma search_at_unfold (depth : nat) (query : pystr) (retry_count : Z)
  (t : list event) :
  search_alternative_sources_at cfg w depth query retry_count t =
  if Z_ge_lt_dec retry_count (SEARCH_RETRY_LIMIT cfg) then
    (Return [], t ++ [Log ERROR SearchRetryLimitReached])
  else
    match search_once cfg w query t with
    | Raise RequestException =>
        match depth with
        | O =>
            (Raise RecursionError,
             t ++ [SearchRequest query (SEARCH_RESULT_COUNT cfg);
                   Log WARNING SearchRequestFailed])
        | S depth' =>
            search_alternative_sources_at cfg w depth' query (retry_count + 1)
              (t ++ [SearchRequest query (SEARCH_RESULT_COUNT cfg);
                     Log WARNING SearchRequestFailed])
        end
    | r => (r, t ++ [SearchRequest query (SEARCH_RESULT_COUNT cfg)])
    end.
Proof. destruct depth; reflexivity. Qed.

Lemma search_unfold (query : pystr) (retry_count : Z) (t : list event) :
  search_alternative_sources cfg w query retry_count t =
  if Z_ge_lt_dec retry_count (SEARCH_RETRY_LIMIT cfg) then
    (Return [], t ++ [Log ERROR SearchRetryLimitReached])
  else
    match search_once cfg w query t with
    | Raise RequestException =>
        match recursion_depth w with
        | O =>
            (Raise RecursionError,
             t ++ [SearchRequest query (SEARCH_RESULT_COUNT cfg);
                   Log WARNING SearchRequestFailed])
        | S depth' =>
            search_alternative_sources_at cfg w depth' query (retry_count + 1)
              (t ++ [SearchRequest query (SEARCH_RESULT_COUNT cfg);
                     Log WARNING SearchRequestFailed])
        end
    | r => (r, t ++ [SearchRequest query (SEARCH_RESULT_COUNT cfg)])
    end.
Proof. unfold search_alternative_sources. apply search_at_unfold. Qed.

(** Every activation is a run: the relation describes all it does. *)
Lemma search_at_runs (depth : nat) (query : pystr) :
  forall retry_count t,
    search_run cfg w query depth retry_count t
      (search_alternative_sources_at cfg w depth query retry_count t).
Proof.
  induction depth as [|depth IH]; intros retry_count t; rewrite search_at_unfold;
    destruct (Z_ge_lt_dec retry_count (SEARCH_RETRY_LIMIT cfg)) as [Hge|Hlt];
    try (apply run_limit; exact Hge);
    destruct (search_once cfg w query t) as [out|e] eqn:E;
    try (apply run_done; [exact Hlt | exact E | discriminate]);
    destruct e; try (apply run_done; [exact Hlt | exact E | discriminate]).
  - apply run_overflow; assumption.
  - apply run_retry; [exact Hlt | exact E | apply IH].
Qed.

Lemma search_runs (query : pystr) (retry_count : Z) (t : list event) :
  search_run cfg w query (recursion_depth w) retry_count t
    (search_alternative_sources cfg w query retry_count t).
Proof. apply search_at_runs. Qed.

Lemma search_requests_app (a b : list event) :
  search_requests (a ++ b) = (search_requests a + search_requests b)%nat.
Proof.
  unfold search_requests. rewrite filter_app, length_app. reflexivity.
Qed.

(** A run only appends to the trace, and appends at most
    [SEARCH_RETRY_LIMIT - retry_count] requests. *)
Lemma search_run_bound (depth : nat) (query : pystr) (retry_count : Z)
  (t : list event) (final : result (list link) * list event) :
  search_run cfg w query depth retry_count t final ->
  exists t_new,
    snd final = t ++ t_new /\
    Z.of_nat (search_requests t_new) <= Z.max 0 (SEARCH_RETRY_LIMIT cfg - retry_count).
Proof.
  induction 1 as [d r t Hge | d r t final Hlt E Hrun IH | r t Hlt E
                 | d r t res Hlt E Hne].
  - exists [Log ERROR SearchRetryLimitReached]. split; [reflexivity|]. cbn. lia.
  - destruct IH as [t_new [Ht Hb]].
    exists ([SearchRequest query (SEARCH_RESULT_COUNT cfg);
             Log WARNING SearchRequestFailed] ++ t_new).
    split.
    + rewrite Ht, <- app_assoc. reflexivity.
    + rewrite search_requests_app. cbn. lia.
  - exists [SearchRequest query (SEARCH_RESULT_COUNT cfg);
            Log WARNING SearchRequestFailed].
    split; [reflexivity|]. cbn. lia.
  - exists [SearchRequest query (SEARCH_RESULT_COUNT cfg)].
    split; [reflexivity|]. cbn. lia.
Qed.


(** When every request fails in transport, the run ends at the limit
    with the empty list, or on the stack with [RecursionError]; the
    stack suffices when it admits [SEARCH_RETRY_LIMIT - retry_count]
    activations. *)
Lemma search_run_all_fail (depth : nat) (query : pystr) (retry_count : Z)
  (t : list event) (final : result (list link) * list event) :
  (forall n, requests_get w query (SEARCH_RESULT_COUNT cfg) n = Raise RequestException) ->
  search_run cfg w query depth retry_count t final ->
  (fst final = Return [] \/ fst final = Raise RecursionError) /\
  (SEARCH_RETRY_LIMIT cfg - retry_count <= Z.of_nat depth -> fst final = Return []).
Proof.
  intros Hfail.
  induction 1 as [d r t Hge | d r t final Hlt E Hrun IH | r t Hlt E
                 | d r t res Hlt E Hne].
  - auto.
  - destruct IH as [IH1 IH2]. split; [exact IH1|]. intros Hd. apply IH2. lia.
  - split; [auto|]. cbn. lia.
  - exfalso. apply Hne. rewrite <- E. unfold search_once. rewrite Hfail. reflexivity.
Qed.

(** A run that returns a list either stopped at the limit or returns
    the deduplicated links of some decoded provider answer. *)
Lemma search_run_success (depth : nat) (query : pystr) (retry_count : Z)
  (t : list event) (final : result (list link) * list event) (out : list link) :
  search_run cfg w query depth retry_count t final ->
  fst final = Return out ->
  out = [] \/
  exists n search_results links,
    requests_get w query (SEARCH_RESULT_COUNT cfg) n = Return search_results /\
    build_links search_results = Return links /\
    unique_links links = Return out.
Proof.
  induction 1 as [d r t Hge | d r t final Hlt E Hrun IH | r t Hlt E
                 | d r t res Hlt E Hne]; cbn.
  - intros [= <-]. left. reflexivity.
  - exact IH.
  - discriminate.
  - intros ->. right. unfold search_once in E.
    destruct (requests_get w query (SEARCH_RESULT_COUNT cfg) (search_requests t))
      as [search_results|e] eqn:Hreq; cbn in E; [|discriminate].
    destruct (build_links search_results) as [links|e] eqn:Hl; cbn in E; [|discriminate].
    exists (search_requests t), search_results, links. auto.
Qed.

Lemma search_all_fail (query : pystr) (retry_count : Z) (t : list event) :
  (forall n, requests_get w query (SEARCH_RESULT_COUNT cfg) n = Raise RequestException) ->
  (fst (search_alternative_sources cfg w query retry_count t) = Return [] \/
   fst (search_alternative_sources cfg w query retry_count t) = Raise RecursionError) /\
  (SEARCH_RETRY_LIMIT cfg - retry_count <= Z.of_nat (recursion_depth w) ->
   fst (search_alternative_sources cfg w query retry_count t) = Return []).
Proof.
  intros Hfail.
  exact (search_run_all_fail _ _ _ _ _ Hfail (search_runs query retry_count t)).
Qed.


End Finder.

(** ** The alternative-source finder: deduplication by URL *)

Lemma key_eqb_eq (a b : key) : key_eqb a b = true <-> a = b.
Proof.
  unfold key_eqb. destruct (key_eq_dec a b); split; congruence.
Qed.

Lemma key_eqb_refl (a : key) : key_eqb a a = true.
Proof. apply key_eqb_eq. reflexivity. Qed.

Lemma key_eqb_neq (a b : key) : a <> b -> key_eqb a b = false.
Proof.
  unfold key_eqb. destruct (key_eq_dec a b); congruence.
Qed.

Lemma key_eqb_sym (a b : key) : key_eqb a b = key_eqb b a.
Proof.
  destruct (key_eq_dec a b) as [->|Hne]; [reflexivity|].
  rewrite !key_eqb_neq; congruence.
Qed.

Lemma same_url_has_key (a b : link) (k : key) :
  url_key a = Some k -> same_url a b = has_key k b.
Proof.
  unfold same_url, has_key. intros ->. reflexivity.
Qed.

Lemma find_app_split {A} (p : A -> bool) (a b : list A) :
  find p (a ++ b) = match find p a with Some x => Some x | None => find p b end.
Proof.
  induction a as [|x a IH]; cbn; [reflexivity|].
  destruct (p x); [reflexivity | exact IH].
Qed.

Lemma find_pointwise {A} (p q : A -> bool) (l : list A) :
  (forall x, p x = q x) -> find p l = find q l.
Proof.
  intros H. induction l as [|x l IH]; cbn; [reflexivity|].
  rewrite H, IH. reflexivity.
Qed.

Lemma find_not_none {A} (p : A -> bool) (l : list A) (x : A) :
  In x l -> p x = true -> find p l <> None.
Proof.
  intros Hin Hp Hnone. pose proof (find_none _ _ Hnone _ Hin). congruence.
Qed.

Section Dict.

Variable k : key.
Variable v : link.

Lemma dict_setitem_keys (d : list (key * link)) (k' : key) :
  In k' (map fst (dict_setitem k v d)) <-> k' = k \/ In k' (map fst d).
Proof.
  induction d as [|[k0 v0] d IH]; cbn.
  - intuition congruence.
  - destruct (key_eqb k0 k) eqn:E; cbn.
    + apply key_eqb_eq in E. subst k0. intuition congruence.
    + rewrite IH. intuition.
Qed.

Lemma dict_setitem_NoDup (d : list (key * link)) :
  NoDup (map fst d) -> NoDup (map fst (dict_setitem k v d)).
Proof.
  induction d as [|[k0 v0] d IH]; cbn; intros Hnd.
  - constructor; [intros [] | constructor].
  - inversion Hnd as [|? ? Hnotin Hnd']; subst.
    destruct (key_eqb k0 k) eqn:E; cbn.
    + constructor; assumption.
    + constructor; [|apply IH; exact Hnd'].
      rewrite dict_setitem_keys. intros [->|Hin]; [|contradiction].
      rewrite key_eqb_refl in E. discriminate.
Qed.

Lemma dict_find_setitem_same (d : list (key * link)) :
  dict_find k (dict_setitem k v d) = Some v.
Proof.
  induction d as [|[k0 v0] d IH]; cbn.
  - rewrite key_eqb_refl. reflexivity.
  - destruct (key_eqb k0 k) eqn:E; cbn; rewrite key_eqb_sym, E;
      [reflexivity | exact IH].
Qed.

Lemma dict_find_setitem_other (d : list (key * link)) (k' : key) :
  k' <> k -> dict_find k' (dict_setitem k v d) = dict_find k' d.
Proof.
  intros Hne. induction d as [|[k0 v0] d IH]; cbn.
  - rewrite key_eqb_neq by exact Hne. reflexivity.
  - destruct (key_eqb k0 k) eqn:E; cbn.
    + apply key_eqb_eq in E. subst k0.
      rewrite key_eqb_neq by exact Hne. reflexivity.
    + rewrite IH. reflexivity.
Qed.

Lemma well_keyed_setitem (d : list (key * link)) :
  url_key v = Some k -> well_keyed d -> well_keyed (dict_setitem k v d).
Proof.
  intros Hv. unfold well_keyed. induction d as [|[k0 v0] d IH]; cbn; intros Hd.
  - constructor; [exact Hv | constructor].
  - inversion Hd as [|? ? H0 Hd']; subst.
    destruct (key_eqb k0 k) eqn:E.
    + apply key_eqb_eq in E. subst k0. constructor; assumption.
    + constructor; [exact H0 | apply IH; exact Hd'].
Qed.

Lemma dict_setitem_values (d : list (key * link)) (v' : link) :
  In v' (map snd (dict_setitem k v d)) -> v' = v \/ In v' (map snd d).
Proof.
  induction d as [|[k0 v0] d IH]; cbn.
  - intuition.
  - destruct (key_eqb k0 k); cbn; intuition.
Qed.

End Dict.

Lemma dict_find_in_keys (k : key) (d : list (key * link)) (v : link) :
  dict_find k d = Some v -> In k (map fst d).
Proof.
  induction d as [|[k0 v0] d IH]; cbn; [discriminate|].
  destruct (key_eqb k k0) eqn:E.
  - apply key_eqb_eq in E. auto.
  - auto.
Qed.

(** What the comprehension builds from [d]: unique keys, every value
    under its own key, every value taken from [links] or from [d], and
    under each key the last link of [links] that carries it. *)
Lemma dict_comprehension_spec (links : list link) :
  forall d d',
    dict_comprehension links d = Return d' ->
    NoDup (map fst d) -> well_keyed d ->
    NoDup (map fst d') /\ well_keyed d' /\
    (forall x, In x (map snd d') -> In x links \/ In x (map snd d)) /\
    (forall k, dict_find k d' =
               match find (has_key k) (rev links) with
               | Some l => Some l
               | None => dict_find k d
               end).
Proof.
  induction links as [|l rest IH]; cbn; intros d d' H Hnd Hwk.
  - injection H as <-. repeat split; auto.
  - destruct (hash_key (url l)) as [kl|] eqn:Hk; [|discriminate].
    destruct (IH _ _ H (dict_setitem_NoDup kl l d Hnd)
                (well_keyed_setitem kl l d Hk Hwk))
      as [Hnd' [Hwk' [Hin Hfind]]].
    repeat split; try assumption.
    + intros x Hx. destruct (Hin x Hx) as [Hr|Hs]; [auto|].
      apply dict_setitem_values in Hs. destruct Hs as [->|Hs]; auto.
    + intros k. rewrite Hfind, find_app_split.
      destruct (find (has_key k) (rev rest)); [reflexivity|]. cbn.
      unfold has_key at 1, url_key. rewrite Hk.
      destruct (key_eq_dec k kl) as [->|Hne].
      * rewrite key_eqb_refl. apply dict_find_setitem_same.
      * rewrite key_eqb_neq by exact Hne. apply dict_find_setitem_other, Hne.
Qed.

Lemma dict_comprehension_hashable (links : list link) :
  forall d d',
    dict_comprehension links d = Return d' ->
    forall l, In l links -> url_key l <> None.
Proof.
  induction links as [|l0 rest IH]; cbn; intros d d' H l Hin; [contradiction|].
  destruct (hash_key (url l0)) as [k0|] eqn:Hk; [|discriminate].
  destruct Hin as [<-|Hin]; [unfold url_key; congruence|].
  eapply IH; eassumption.
Qed.

Lemma find_values (k : key) (d : list (key * link)) :
  well_keyed d -> find (has_key k) (map snd d) = dict_find k d.
Proof.
  unfold well_keyed. induction d as [|[k0 v0] d IH]; cbn; intros Hwk;
    [reflexivity|].
  inversion Hwk as [|? ? H0 Hwk']; subst. cbn in H0.
  unfold has_key at 1. rewrite H0.
  destruct (key_eqb k k0); [reflexivity | apply IH, Hwk'].
Qed.

Lemma count_values (k : key) (d : list (key * link)) :
  well_keyed d ->
  length (filter (has_key k) (map snd d)) = count_occ key_eq_dec (map fst d) k.
Proof.
  unfold well_keyed. induction d as [|[k0 v0] d IH]; cbn; intros Hwk;
    [reflexivity|].
  inversion Hwk as [|? ? H0 Hwk']; subst. cbn in H0.
  unfold has_key at 1. rewrite H0. unfold key_eqb.
  destruct (key_eq_dec k k0) as [->|Hne].
  - destruct (key_eq_dec k0 k0); [|congruence]. cbn. rewrite IH by exact Hwk'.
    reflexivity.
  - destruct (key_eq_dec k0 k); [congruence|]. apply IH, Hwk'.
Qed.

Lemma well_keyed_url_keys (d : list (key * link)) :
  well_keyed d -> map url_key (map snd d) = map Some (map fst d).
Proof.
  unfold well_keyed. induction 1 as [|[k0 v0] d H0 Hwk IH]; cbn in *;
    [reflexivity|].
  rewrite H0, IH. reflexivity.
Qed.

Lemma url_is_none_has_key (l : link) : url_is_none l = has_key KNone l.
Proof.
  unfold url_is_none, has_key, url_key. destruct (url l) as [| [] | | | |];
    reflexivity.
Qed.

(** The list [unique_links] returns: no URL twice, nothing that was not
    in [links], each URL of [links] exactly once, and for each URL the
    last link of [links] that carries it; at most one link without URL. *)
Lemma unique_links_spec (links out : list link) :
  unique_links links = Return out ->
  NoDup (map url_key out) /\
  incl out links /\
  each_url_once links out /\
  last_seen_kept links out /\
  (length (filter url_is_none out) <= 1)%nat.
Proof.
  unfold unique_links. destruct (dict_comprehension links []) as [d|e] eqn:E;
    cbn; [|discriminate].
  intros [= <-].
  destruct (dict_comprehension_spec links [] d E (NoDup_nil _) (Forall_nil _))
    as [Hnd [Hwk [Hin Hfind]]].
  assert (Hkey : forall l, In l links ->
            exists k, url_key l = Some k /\ In k (map fst d) /\
                      find (has_key k) (map snd d) = find (has_key k) (rev links)).
  { intros l Hl.
    destruct (url_key l) as [k|] eqn:Hk;
      [|exfalso; exact (dict_comprehension_hashable links [] d E l Hl Hk)].
    exists k. split; [reflexivity|].
    assert (Hsome : find (has_key k) (rev links) <> None).
    { apply find_not_none with (x := l); [apply in_rev; rewrite rev_involutive; exact Hl|].
      unfold has_key. rewrite Hk. apply key_eqb_refl. }
    pose proof (Hfind k) as Hf.
    destruct (find (has_key k) (rev links)) as [l'|] eqn:El; [|congruence].
    split; [exact (dict_find_in_keys _ _ _ Hf)|].
    rewrite find_values by exact Hwk. exact Hf. }
  repeat split.
  - rewrite well_keyed_url_keys by exact Hwk.
    apply NoDup_map_NoDup_ForallPairs; [|exact Hnd].
    intros a b _ _ [= ->]. reflexivity.
  - intros x Hx. destruct (Hin x Hx) as [H|[]]. exact H.
  - intros l Hl. destruct (Hkey l Hl) as [k [Hk [Hink _]]].
    rewrite (filter_ext _ _ (fun b => same_url_has_key l b k Hk)).
    rewrite count_values by exact Hwk.
    apply NoDup_count_occ'; assumption.
  - intros l Hl. destruct (Hkey l Hl) as [k [Hk [_ Hf]]].
    rewrite !(find_pointwise _ _ _ (fun b => same_url_has_key l b k Hk)).
    exact Hf.
  - rewrite (filter_ext _ _ url_is_none_has_key), count_values by exact Hwk.
    apply NoDup_count_occ. exact Hnd.
Qed.

Lemma make_link_no_url (d : list (pystr * pyvalue)) (l : link) :
  dict_lookup (lit "url") d = None ->
  make_link (PDict d) = Return l ->
  url_is_none l = true.
Proof.
  unfold make_link. cbn. intros -> [= <-]. reflexivity.
Qed.

Section FinderDedup.

Variable cfg : config.
Variable w : world.

(** C10: the list a successful [search_alternative_sources] returns
    holds at most one link whose [url] is [None]; when the provider's
    links hold such a link at all, it holds exactly one. *)
Theorem search_one_entry_without_url (query : pystr) (retry_count : Z)
  (t t' : list event) (out : list link) :
  search_alternative_sources cfg w query retry_count t = (Return out, t') ->
  (length (filter url_is_none out) <= 1)%nat /\
  (out = [] \/
   exists n search_results links,
     requests_get w query (SEARCH_RESULT_COUNT cfg) n = Return search_results /\
     build_links search_results = Return links /\
     ((exists l, In l links /\ url_is_none l = true) ->
      length (filter url_is_none out) = 1%nat)).
Proof.
  intros H.
  pose proof (search_runs cfg w query retry_count t) as Hrun.
  rewrite H in Hrun.
  destruct (search_run_success cfg w _ _ _ _ _ out Hrun eq_refl)
    as [-> | [n [sr [links [Hreq [Hl Hu]]]]]].
  - split; [cbn; lia | left; reflexivity].
  - destruct (unique_links_spec links out Hu) as [_ [_ [Honce [_ Hle]]]].
    split; [exact Hle|]. right. exists n, sr, links.
    repeat split; try assumption.
    intros [l [Hin Hnone]]. rewrite <- (Honce l Hin).
    f_equal. apply filter_ext. intros b.
    rewrite url_is_none_has_key in *.
    unfold has_key in Hnone. destruct (url_key l) as [k|] eqn:Hk; [|discriminate].
    apply key_eqb_eq in Hnone. subst k.
    symmetry. apply same_url_has_key. exact Hk.
Qed.

End FinderDedup.

(** ** The request orchestrator *)

Section Orchestrator.

Variable cfg : config.
Variable w : world.

(** An empty object is reported as an invalid body. *)
Lemma analyze_content_falsy (t : list event) (data : pyvalue) :
  get_json w = Return data ->
  truthy data = false ->
  analyze_content cfg w t =
    (Return (error_body "Invalid or missing JSON body", 400), t).
Proof.
  intros Hj Hd.
  unfold analyze_content, try_except, bind, lift, ret.
  rewrite Hj, Hd. reflexivity.
Qed.

(** A non-empty object without [content], or with a [content] that
    trims to nothing, is reported as lacking content. *)
Lemma analyze_content_no_content (t : list event) (d : list (pystr * pyvalue)) :
  get_json w = Return (PDict d) ->
  d <> [] ->
  match dict_lookup (lit "content") d with
  | None => True
  | Some v => exists c, v = PStr c /\ strip c = []
  end ->
  analyze_content cfg w t = (Return (error_body "No content provided", 400), t).
Proof.
  intros Hj Hd Hc.
  unfold analyze_content, try_except, bind, lift, ret, preprocess_text.
  rewrite Hj. destruct d as [|kv d]; [congruence|].
  cbn [truthy negb py_get rbind preprocess_text].
  destruct (dict_lookup (lit "content") (kv :: d)) as [v|].
  - destruct Hc as [c [-> Hs]]. cbn [py_strip]. rewrite Hs. reflexivity.
  - reflexivity.
Qed.

(** The handler in closed form on a request that passes validation. *)
Lemma analyze_content_validated (t : list event) (d : list (pystr * pyvalue))
  (c : pystr) :
  get_json w = Return (PDict d) ->
  d <> [] ->
  dict_lookup (lit "content") d = Some (PStr c) ->
  strip c <> [] ->
  analyze_content cfg w t =
  match summarize_text cfg w (strip c) t with
  | (Raise _, t1) =>
      (Return (error_body "Failed to summarize content", 500),
       t1 ++ [Log ERROR ErrorSummarizingText])
  | (Return summary, t1) =>
      let metadata :=
        match dict_lookup (lit "metadata") d with
        | Some m => if isinstance_dict m then m else PDict []
        | None => PDict []
        end in
      match search_alternative_sources cfg w summary 0 t1 with
      | (Return found, t2) =>
          (Return (success_body summary metadata (or_empty found), 200), t2)
      | (Raise _, t2) =>
          (Return (success_body summary metadata [], 200),
           t2 ++ [Log ERROR ErrorFetchingSources])
      end
  end.
Proof.
  intros Hj Hd Hc Hs.
  unfold analyze_content, try_except, bind, lift, ret, logging, emit, preprocess_text.
  rewrite Hj. destruct d as [|kv d]; [congruence|].
  cbn [truthy negb py_get rbind preprocess_text].
  rewrite Hc. cbn [py_strip].
  destruct (strip c) as [|c0 s] eqn:E; [congruence|].
  destruct (summarize_text cfg w (c0 :: s) t) as [[summary|e] t1]; [|reflexivity].
  destruct (search_alternative_sources cfg w summary 0 t1) as [[found|e] t2].
  - destruct (dict_lookup (lit "metadata") (kv :: d)) as [m|]; reflexivity.
  - destruct (dict_lookup (lit "metadata") (kv :: d)) as [m|]; reflexivity.
Qed.

(** C2 (as the code has it): when the body is the JSON object [{}], the
    handler answers 400 with the error "Invalid or missing JSON body",
    and calls nothing. *)
Theorem analyze_empty_object (t : list event) :
  get_json w = Return (PDict []) ->
  analyze_content cfg w t =
    (Return (error_body "Invalid or missing JSON body", 400), t).
Proof.
  intros Hj. apply analyze_content_falsy with (data := PDict []);
    [exact Hj | reflexivity].
Qed.

(** C4: on a request with non-empty content and a summarizer that
    returns, when the finder fails (every search request fails in
    transport, or the finder raises whatever exception), the handler
    answers 200 with the summary, which is not empty, and with the empty
    list of alternative sources. *)
Theorem analyze_search_failure_not_fatal (t t1 : list event)
  (d : list (pystr * pyvalue)) (c summary : pystr) :
  get_json w = Return (PDict d) ->
  d <> [] ->
  dict_lookup (lit "content") d = Some (PStr c) ->
  strip c <> [] ->
  summarize_text cfg w (strip c) t = (Return summary, t1) ->
  (forall n, requests_get w summary (SEARCH_RESULT_COUNT cfg) n = Raise RequestException) \/
  (exists e, fst (search_alternative_sources cfg w summary 0 t1) = Raise e) ->
  summary <> [] /\
  exists metadata t',
    analyze_content cfg w t = (Return (success_body summary metadata [], 200), t').
Proof.
  intros Hj Hd Hc Hs Hsum Hfail.
  split; [exact (proj1 (summarize_text_returns cfg w _ _ _ _ Hsum))|].
  rewrite (analyze_content_validated t d c Hj Hd Hc Hs), Hsum. cbn zeta.
  destruct Hfail as [Hall | [e He]].
  - pose proof (proj1 (search_all_fail cfg w summary 0 t1 Hall)) as Ha.
    destruct (search_alternative_sources cfg w summary 0 t1) as [r t2].
    cbn in Ha. destruct Ha as [-> | ->]; eauto.
  - destruct (search_alternative_sources cfg w summary 0 t1) as [r t2].
    cbn in He. subst r. eauto.
Qed.

(** C6: on a request with non-empty content, when [summarize_text]
    raises, the handler answers 500 with the error "Failed to summarize
    content"; all it has done by then is the one completion call and two
    error logs: no search request was issued and the finder has logged
    nothing. *)
Theorem analyze_summarizer_failure (t : list event)
  (d : list (pystr * pyvalue)) (c : pystr) (e : exn) :
  get_json w = Return (PDict d) ->
  d <> [] ->
  dict_lookup (lit "content") d = Some (PStr c) ->
  strip c <> [] ->
  fst (summarize_text cfg w (strip c) t) = Raise e ->
  analyze_content cfg w t =
    (Return (error_body "Failed to summarize content", 500),
     t ++ [ChatCompletion (lit "Summarize and analyze: " ++ strip c) (MAX_TOKENS cfg);
           Log ERROR GptSummarizationError;
           Log ERROR ErrorSummarizingText]).
Proof.
  intros Hj Hd Hc Hs Hsum.
  rewrite (analyze_content_validated t d c Hj Hd Hc Hs).
  rewrite summarize_text_eq in *. cbn zeta in *.
  destruct (model_summary cfg w (strip c)) as [[|c0 s]|e0]; cbn in Hsum;
    try discriminate; rewrite <- !app_assoc; reflexivity.
Qed.

(** C8: on a request with non-empty content and a summarizer that
    returns, whatever the [metadata] field holds the handler answers
    200; the answer carries the field itself when it is a dict and the
    empty dict when it is anything else. *)
Theorem analyze_metadata_sanitized (t t1 : list event)
  (d : list (pystr * pyvalue)) (c summary : pystr) (m : pyvalue) :
  get_json w = Return (PDict d) ->
  d <> [] ->
  dict_lookup (lit "content") d = Some (PStr c) ->
  strip c <> [] ->
  summarize_text cfg w (strip c) t = (Return summary, t1) ->
  dict_lookup (lit "metadata") d = Some m ->
  exists sources t',
    analyze_content cfg w t =
      (Return (success_body summary
                 (if isinstance_dict m then m else PDict []) sources, 200), t').
Proof.
  intros Hj Hd Hc Hs Hsum Hm.
  rewrite (analyze_content_validated t d c Hj Hd Hc Hs), Hsum, Hm. cbn zeta.
  destruct (search_alternative_sources cfg w summary 0 t1) as [[found|e] t2];
    eauto.
Qed.

(** C9: when the body is a non-empty object whose [content] is not a
    [str], the handler answers 500 with the error "An unexpected error
    occurred": [strip] raises, and only the outermost handler catches
    it.  Nothing was called. *)
Theorem analyze_content_not_text (t : list event)
  (d : list (pystr * pyvalue)) (v : pyvalue) :
  get_json w = Return (PDict d) ->
  d <> [] ->
  dict_lookup (lit "content") d = Some v ->
  (forall s, v <> PStr s) ->
  preprocess_text v = Raise AttributeError /\
  analyze_content cfg w t =
    (Return (error_body "An unexpected error occurred", 500),
     t ++ [Log ERROR UnhandledError]).
Proof.
  intros Hj Hd Hc Hv.
  assert (Hp : preprocess_text v = Raise AttributeError).
  { destruct v; try reflexivity. exfalso. exact (Hv s eq_refl). }
  split; [exact Hp|].
  unfold analyze_content, try_except, bind, lift, ret, logging, emit.
  rewrite Hj. destruct d as [|kv d]; [congruence|].
  cbn [truthy negb py_get rbind]. rewrite Hc, Hp. reflexivity.
Qed.

End Orchestrator.

(** ** The theorems at concrete requests *)

Example preprocess_news :
  preprocess_text (PStr (lit "  Breaking news about X.  "))
  = Return (lit "Breaking news about X.").
Proof. reflexivity. Qed.

Example preprocess_inner_blanks :
  preprocess_text (PStr (lit "a  b")) = Return (lit "a  b").
Proof. reflexivity. Qed.

Lemma preprocess_text_strips_witness :
  exists l r out,
    preprocess_text (PStr (lit "  Breaking news about X.  ")) = Return out /\
    lit "  Breaking news about X.  " = l ++ out ++ r /\
    all_space l = true /\ all_space r = true /\
    starts_with_space out = false /\ ends_with_space out = false /\
    (starts_with_space (lit "  Breaking news about X.  ") = false ->
     ends_with_space (lit "  Breaking news about X.  ") = false ->
     out = lit "  Breaking news about X.  ") /\
    (all_space (lit "  Breaking news about X.  ") = true -> out = []).
Proof. exact (preprocess_text_strips (lit "  Breaking news about X.  ")). Defined.

Lemma summarize_text_nonempty_witness :
  (lit "X happened." <> [] /\ strip (lit "X happened.") = lit "X happened.") /\
  summarize_text default_config (blank_model_world PNone) (lit "news") [] =
    (Raise ValueError,
     [ChatCompletion (lit "Summarize and analyze: news") 100;
      Log ERROR GptSummarizationError]).
Proof.
  split.
  - apply (proj1 (summarize_text_nonempty default_config
                    (working_world PNone 0 []) (lit "news") []))
      with (t' := [ChatCompletion (lit "Summarize and analyze: news") 100]).
    vm_compute. reflexivity.
  - apply (proj2 (summarize_text_nonempty default_config
                    (blank_model_world PNone) (lit "news") []))
      with (response := chat_answer (PStr (lit "   "))) (content := lit "   ");
      reflexivity.
Defined.


Example search_down_trace :
  search_alternative_sources default_config (search_down_world PNone)
    (lit "news") 0 [] =
  (Return [],
   [SearchRequest (lit "news") 5; Log WARNING SearchRequestFailed;
    SearchRequest (lit "news") 5; Log WARNING SearchRequestFailed;
    SearchRequest (lit "news") 5; Log WARNING SearchRequestFailed;
    Log ERROR SearchRetryLimitReached]).
Proof. vm_compute. reflexivity. Qed.

Example search_dup_result :
  search_alternative_sources default_config (working_world PNone 1 dup_items)
    (lit "news") 0 [] =
  (Return [text_link "Second" "https://a.example";
           text_link "Other" "https://b.example"],
   [SearchRequest (lit "news") 5; Log WARNING SearchRequestFailed;
    SearchRequest (lit "news") 5]).
Proof. vm_compute. reflexivity. Qed.

(** C1 as the specification words it fails: the provider lists
    [https://a.example] first with the title "First" and later with the
    title "Second"; the finder returns the entry titled "Second". *)
Lemma search_dedup_first_seen_counterexample :
  search_alternative_sources default_config (working_world PNone 0 dup_items)
    (lit "news") 0 [] = (Return dup_out, [SearchRequest (lit "news") 5]) /\
  build_links (provider_answer dup_items) = Return dup_links /\
  ~ first_seen_kept dup_links dup_out.
Proof.
  split; [vm_compute; reflexivity|].
  split; [reflexivity|].
  intros H.
  specialize (H (text_link "First" "https://a.example") (or_introl eq_refl)).
  vm_compute in H. discriminate H.
Qed.

Lemma search_one_entry_without_url_witness :
  (length (filter url_is_none urlless_out) <= 1)%nat /\
  (urlless_out = [] \/
   exists n search_results links,
     requests_get (working_world PNone 1 urlless_items) (lit "news") 5 n
       = Return search_results /\
     build_links search_results = Return links /\
     ((exists l, In l links /\ url_is_none l = true) ->
      length (filter url_is_none urlless_out) = 1%nat)).
Proof.
  apply (search_one_entry_without_url default_config
           (working_world PNone 1 urlless_items) (lit "news") 0 []
           [SearchRequest (lit "news") 5; Log WARNING SearchRequestFailed;
            SearchRequest (lit "news") 5]).
  vm_compute. reflexivity.
Defined.

Lemma analyze_empty_object_witness :
  analyze_content default_config (working_world (PDict []) 0 dup_items) [] =
    (Return (error_body "Invalid or missing JSON body", 400), []).
Proof.
  apply (analyze_empty_object default_config (working_world (PDict []) 0 dup_items) []).
  reflexivity.
Defined.

(** C2 as the specification words it fails: for the body [{}] the answer
    is not the error "No content provided". *)
Lemma analyze_empty_object_counterexample :
  get_json (working_world (PDict []) 0 dup_items) = Return (PDict []) /\
  fst (analyze_content default_config (working_world (PDict []) 0 dup_items) [])
    <> Return (error_body "No content provided", 400).
Proof.
  split; [reflexivity|]. vm_compute. intros H. discriminate H.
Qed.

Example analyze_without_content_field :
  analyze_content default_config
    (working_world (PDict [(lit "metadata", PDict [])]) 0 dup_items) [] =
    (Return (error_body "No content provided", 400), []).
Proof. vm_compute. reflexivity. Qed.

Lemma analyze_search_failure_not_fatal_witness :
  (lit "X happened." <> [] /\
   exists metadata t',
     analyze_content default_config (search_down_world (news_request (PDict []))) [] =
       (Return (success_body (lit "X happened.") metadata [], 200), t')) /\
  (lit "X happened." <> [] /\
   exists metadata t',
     analyze_content default_config
       (search_malformed_world (news_request (PDict []))) [] =
       (Return (success_body (lit "X happened.") metadata [], 200), t')).
Proof.
  split.
  - apply (analyze_search_failure_not_fatal default_config
             (search_down_world (news_request (PDict []))) [] news_summarized
             [(lit "content", PStr (lit "  Breaking news about X.  "));
              (lit "metadata", PDict [])]
             (lit "  Breaking news about X.  ")).
    + reflexivity.
    + discriminate.
    + reflexivity.
    + vm_compute. discriminate.
    + vm_compute. reflexivity.
    + left. intros n. reflexivity.
  - apply (analyze_search_failure_not_fatal default_config
             (search_malformed_world (news_request (PDict []))) [] news_summarized
             [(lit "content", PStr (lit "  Breaking news about X.  "));
              (lit "metadata", PDict [])]
             (lit "  Breaking news about X.  ")).
    + reflexivity.
    + discriminate.
    + reflexivity.
    + vm_compute. discriminate.
    + vm_compute. reflexivity.
    + right. exists AttributeError. vm_compute. reflexivity.
Defined.

Lemma analyze_summarizer_failure_witness :
  analyze_content default_config (blank_model_world (news_request (PDict []))) [] =
    (Return (error_body "Failed to summarize content", 500),
     [] ++ [ChatCompletion
              (lit "Summarize and analyze: " ++ strip (lit "  Breaking news about X.  "))
              100;
            Log ERROR GptSummarizationError;
            Log ERROR ErrorSummarizingText]).
Proof.
  apply (analyze_summarizer_failure default_config
           (blank_model_world (news_request (PDict []))) []
           [(lit "content", PStr (lit "  Breaking news about X.  "));
            (lit "metadata", PDict [])]
           (lit "  Breaking news about X.  ") ValueError).
  - reflexivity.
  - discriminate.
  - reflexivity.
  - vm_compute. discriminate.
  - vm_compute. reflexivity.
Defined.

Lemma analyze_metadata_sanitized_witness :
  exists sources t',
    analyze_content default_config
      (working_world (news_request (PList [PInt 1])) 1 dup_items) [] =
      (Return (success_body (lit "X happened.") (PDict []) sources, 200), t').
Proof.
  apply (analyze_metadata_sanitized default_config
           (working_world (news_request (PList [PInt 1])) 1 dup_items)
           [] news_summarized
           [(lit "content", PStr (lit "  Breaking news about X.  "));
            (lit "metadata", PList [PInt 1])]
           (lit "  Breaking news about X.  ") (lit "X happened.") (PList [PInt 1])).
  - reflexivity.
  - discriminate.
  - reflexivity.
  - vm_compute. discriminate.
  - vm_compute. reflexivity.
  - reflexivity.
Defined.

Example analyze_metadata_list :
  analyze_content default_config
    (working_world (news_request (PList [PInt 1])) 1 dup_items) [] =
    (Return (success_body (lit "X happened.") (PDict []) dup_out, 200),
     news_summarized ++
     [SearchRequest (lit "X happened.") 5; Log WARNING SearchRequestFailed;
      SearchRequest (lit "X happened.") 5]).
Proof. vm_compute. reflexivity. Qed.

Example analyze_metadata_dict :
  fst (analyze_content default_config
         (working_world (news_request (PDict [(lit "source", PStr (lit "rss"))]))
            1 dup_items) []) =
    Return (success_body (lit "X happened.")
              (PDict [(lit "source", PStr (lit "rss"))]) dup_out, 200).
Proof. vm_compute. reflexivity. Qed.

Lemma analyze_content_not_text_witness :
  preprocess_text (PInt 42) = Raise AttributeError /\
  analyze_content default_config
    (working_world (PDict [(lit "content", PInt 42)]) 0 dup_items) [] =
    (Return (error_body "An unexpected error occurred", 500),
     [] ++ [Log ERROR UnhandledError]).
Proof.
  apply (analyze_content_not_text default_config
           (working_world (PDict [(lit "content", PInt 42)]) 0 dup_items) []
           [(lit "content", PInt 42)] (PInt 42)).
  - reflexivity.
  - discriminate.
  - reflexivity.
  - intros s. discriminate.
Defined.

(** ** More on the finder: what exactly it requests *)

Section FinderTrace.

Variable cfg : config.
Variable w : world.

Lemma search_once_attempt (query : pystr) (t : list event) :
  search_once cfg w query t = attempt cfg w query (search_requests t).
Proof. reflexivity. Qed.

Lemma rbind_not_transport {A B} (r : result A) (k : A -> result B) :
  r <> Raise RequestException ->
  (forall a, k a <> Raise RequestException) ->
  rbind r k <> Raise RequestException.
Proof.
  intros Hr Hk. destruct r as [a|e]; cbn; [apply Hk|].
  intros [= ->]. apply Hr. reflexivity.
Qed.

Lemma py_get_not_transport (obj : pyvalue) (k : pystr) (default : pyvalue) :
  py_get obj k default <> Raise RequestException.
Proof. destruct obj; discriminate. Qed.

Lemma mapM_make_link_not_transport (items : list pyvalue) :
  mapM make_link items <> Raise RequestException.
Proof.
  induction items as [|it items IH]; cbn; [discriminate|].
  apply rbind_not_transport.
  - unfold make_link.
    repeat (apply rbind_not_transport; [apply py_get_not_transport | intros ?]).
    discriminate.
  - intros l. apply rbind_not_transport; [exact IH | discriminate].
Qed.

Lemma dict_comprehension_not_transport (links : list link) :
  forall d, dict_comprehension links d <> Raise RequestException.
Proof.
  induction links as [|l links IH]; cbn; intros d; [discriminate|].
  destruct (hash_key (url l)); [apply IH | discriminate].
Qed.

(** Only the request itself can raise [RequestException] in an attempt. *)
Lemma attempt_transport (query : pystr) (n : nat) :
  attempt cfg w query n = Raise RequestException <->
  requests_get w query (SEARCH_RESULT_COUNT cfg) n = Raise RequestException.
Proof.
  unfold attempt.
  destruct (requests_get w query (SEARCH_RESULT_COUNT cfg) n) as [sr|e]; cbn;
    [|split; intros [= ->]; reflexivity].
  split; [|discriminate]. intros H. exfalso. revert H.
  apply rbind_not_transport.
  - unfold build_links, provider_items.
    apply rbind_not_transport; [|apply mapM_make_link_not_transport].
    repeat (apply rbind_not_transport; [apply py_get_not_transport | intros ?]).
    destruct a0; discriminate.
  - intros links. unfold unique_links.
    apply rbind_not_transport; [apply dict_comprehension_not_transport | discriminate].
Qed.

Lemma search_requests_failed (query : pystr) (k : nat) :
  search_requests (failed_attempts cfg query k) = k.
Proof.
  induction k as [|k IH]; [reflexivity|].
  cbn [failed_attempts]. rewrite search_requests_app, IH. reflexivity.
Qed.


(** [k] transport failures in a row, with [k] retries left and [k]
    activations admitted, bring the finder to retry count
    [retry_count + k], [k] activations deeper. *)
Lemma search_at_skip_failures (query : pystr) (k : nat) :
  forall depth retry_count t,
    (forall i, (i < k)%nat ->
       requests_get w query (SEARCH_RESULT_COUNT cfg) (search_requests t + i)
       = Raise RequestException) ->
    retry_count + Z.of_nat k <= SEARCH_RETRY_LIMIT cfg ->
    search_alternative_sources_at cfg w (k + depth) query retry_count t =
    search_alternative_sources_at cfg w depth query (retry_count + Z.of_nat k)
      (t ++ failed_attempts cfg query k).
Proof.
  induction k as [|k IH]; intros depth retry_count t Hfail Hle.
  - cbn. rewrite Z.add_0_r, app_nil_r. reflexivity.
  - rewrite search_at_unfold.
    destruct (Z_ge_lt_dec retry_count (SEARCH_RETRY_LIMIT cfg)); [lia|].
    rewrite search_once_attempt.
    rewrite (proj2 (attempt_transport query (search_requests t)))
      by (rewrite <- (Nat.add_0_r (search_requests t)); apply Hfail; lia).
    cbn [Nat.add]. rewrite IH.
    + cbn [failed_attempts]. rewrite <- app_assoc.
      replace (retry_count + 1 + Z.of_nat k) with (retry_count + Z.of_nat (S k))
        by lia.
      reflexivity.
    + intros i Hi. rewrite search_requests_app. cbn.
      replace (search_requests t + 1 + i)%nat with (search_requests t + S i)%nat
        by lia.
      apply Hfail. lia.
    + lia.
Qed.

Lemma search_skip_failures (query : pystr) (k : nat) (retry_count : Z)
  (t : list event) :
  (forall i, (i < k)%nat ->
     requests_get w query (SEARCH_RESULT_COUNT cfg) (search_requests t + i)
     = Raise RequestException) ->
  retry_count + Z.of_nat k <= SEARCH_RETRY_LIMIT cfg ->
  (k <= recursion_depth w)%nat ->
  search_alternative_sources cfg w query retry_count t =
  search_alternative_sources_at cfg w (recursion_depth w - k) query
    (retry_count + Z.of_nat k) (t ++ failed_attempts cfg query k).
Proof.
  intros Hfail Hle Hk. unfold search_alternative_sources.
  replace (recursion_depth w) with (k + (recursion_depth w - k))%nat at 1 by lia.
  apply search_at_skip_failures; assumption.
Qed.

(** After [k] transport failures the outcome of the next request, when
    it is no transport failure, is the outcome of the finder. *)
Lemma search_after_failures (query : pystr) (retry_count : Z)
  (t : list event) (k : nat) (r : result (list link)) :
  (forall i, (i < k)%nat ->
     requests_get w query (SEARCH_RESULT_COUNT cfg) (search_requests t + i)
     = Raise RequestException) ->
  attempt cfg w query (search_requests t + k) = r ->
  r <> Raise RequestException ->
  retry_count + Z.of_nat k < SEARCH_RETRY_LIMIT cfg ->
  (k <= recursion_depth w)%nat ->
  search_alternative_sources cfg w query retry_count t =
    (r, t ++ failed_attempts cfg query k
          ++ [SearchRequest query (SEARCH_RESULT_COUNT cfg)]).
Proof.
  intros Hfail Hr Hne Hlt Hk.
  rewrite (search_skip_failures query k retry_count t Hfail) by (lia || exact Hk).
  rewrite search_at_unfold.
  destruct (Z_ge_lt_dec (retry_count + Z.of_nat k) (SEARCH_RETRY_LIMIT cfg));
    [lia|].
  rewrite search_once_attempt, search_requests_app, search_requests_failed, Hr.
  rewrite <- app_assoc.
  destruct r as [out|[]]; try reflexivity. congruence.
Qed.

(** X1: when the next [k] search requests raise [RequestException], a
    retry is still allowed after them, the stack admits [k] more
    activations, and the request after them ends in anything but a
    [RequestException] (a list of links, or another exception), the
    finder ends with that very outcome after exactly [k + 1] requests:
    [k] warned failures and one more request. *)
Theorem search_answer_after_failures (query : pystr) (retry_count : Z)
  (t : list event) (k : nat) (r : result (list link)) :
  (forall i, (i < k)%nat ->
     requests_get w query (SEARCH_RESULT_COUNT cfg) (search_requests t + i)
     = Raise RequestException) ->
  attempt cfg w query (search_requests t + k) = r ->
  r <> Raise RequestException ->
  retry_count + Z.of_nat k < SEARCH_RETRY_LIMIT cfg ->
  (k <= recursion_depth w)%nat ->
  search_alternative_sources cfg w query retry_count t =
    (r, t ++ failed_attempts cfg query k
          ++ [SearchRequest query (SEARCH_RESULT_COUNT cfg)]) /\
  search_requests (failed_attempts cfg query k
                     ++ [SearchRequest query (SEARCH_RESULT_COUNT cfg)]) = S k.
Proof.
  intros Hfail Hr Hne Hlt Hk. split.
  - apply search_after_failures; assumption.
  - rewrite search_requests_app, search_requests_failed. cbn. lia.
Qed.

(** X2: when the next [SEARCH_RETRY_LIMIT - retry_count] search requests
    all raise [RequestException] and the stack admits that many
    activations, the finder issues exactly that many requests, warns
    after each, logs the retry limit and returns the empty list. *)
Theorem search_exhausts_retries (query : pystr) (retry_count : Z) (t : list event) :
  let k := Z.to_nat (SEARCH_RETRY_LIMIT cfg - retry_count) in
  (forall i, (i < k)%nat ->
     requests_get w query (SEARCH_RESULT_COUNT cfg) (search_requests t + i)
     = Raise RequestException) ->
  (k <= recursion_depth w)%nat ->
  search_alternative_sources cfg w query retry_count t =
    (Return [], t ++ failed_attempts cfg query k ++ [Log ERROR SearchRetryLimitReached]) /\
  search_requests (failed_attempts cfg query k ++ [Log ERROR SearchRetryLimitReached]) = k.
Proof.
  intros k Hfail Hk. split.
  - destruct (Z_ge_lt_dec retry_count (SEARCH_RETRY_LIMIT cfg)) as [Hge|Hlt].
    + replace k with O by (unfold k; lia). cbn.
      rewrite search_unfold.
      destruct (Z_ge_lt_dec retry_count (SEARCH_RETRY_LIMIT cfg)); [reflexivity|lia].
    + rewrite (search_skip_failures query k retry_count t Hfail)
        by (unfold k; lia || exact Hk).
      rewrite search_at_unfold.
      destruct (Z_ge_lt_dec (retry_count + Z.of_nat k) (SEARCH_RETRY_LIMIT cfg));
        [|unfold k in *; lia].
      rewrite <- app_assoc. reflexivity.
  - rewrite search_requests_app, search_requests_failed. cbn. lia.
Qed.


End FinderTrace.

(** ** More on the deduplication *)

Lemma key_mem_in (k : key) (ks : list key) : key_mem k ks = true <-> In k ks.
Proof.
  unfold key_mem. rewrite existsb_exists. split.
  - intros [x [Hin Hx]]. apply key_eqb_eq in Hx. subst x. exact Hin.
  - intros Hin. exists k. split; [exact Hin | apply key_eqb_refl].
Qed.

Lemma key_mem_app (k : key) (a b : list key) :
  key_mem k (a ++ b) = key_mem k a || key_mem k b.
Proof. unfold key_mem. apply existsb_app. Qed.

Lemma dict_setitem_keys_eq (k : key) (v : link) (d : list (key * link)) :
  map fst (dict_setitem k v d) =
  if key_mem k (map fst d) then map fst d else map fst d ++ [k].
Proof.
  induction d as [|[k0 v0] d IH]; cbn; [reflexivity|].
  rewrite (key_eqb_sym k k0).
  destruct (key_eqb k0 k); cbn; [reflexivity|].
  rewrite IH. unfold key_mem. destruct (existsb (key_eqb k) (map fst d)); reflexivity.
Qed.

Lemma dict_setitem_new (k : key) (v : link) (d : list (key * link)) :
  ~ In k (map fst d) -> dict_setitem k v d = d ++ [(k, v)].
Proof.
  induction d as [|[k0 v0] d IH]; cbn; intros Hnotin; [reflexivity|].
  rewrite key_eqb_neq by intuition congruence.
  rewrite IH by intuition. reflexivity.
Qed.

Lemma filter_filter {A} (p q : A -> bool) (l : list A) :
  filter p (filter q l) = filter (fun x => q x && p x) l.
Proof.
  induction l as [|x l IH]; cbn; [reflexivity|].
  destruct (q x); cbn; [destruct (p x)|]; rewrite IH; reflexivity.
Qed.

(** The keys of the comprehension: those of [d], then the new ones in
    the order they first occur. *)
Lemma dict_comprehension_keys (links : list link) :
  forall d d',
    dict_comprehension links d = Return d' ->
    map fst d' =
    map fst d ++
    filter (fun k => negb (key_mem k (map fst d))) (first_occurrences (link_keys links)).
Proof.
  induction links as [|l rest IH]; cbn; intros d d' H.
  - injection H as <-. rewrite app_nil_r. reflexivity.
  - unfold link_keys. cbn. fold (link_keys rest). unfold url_key at 1.
    destruct (hash_key (url l)) as [k|] eqn:Hk; [|discriminate].
    rewrite (IH _ _ H), dict_setitem_keys_eq. cbn.
    rewrite filter_filter.
    destruct (key_mem k (map fst d)) eqn:Hmem; cbn.
    + f_equal. apply filter_ext. intros k'.
      destruct (key_eq_dec k k') as [<-|Hne].
      * rewrite Hmem, key_eqb_refl. reflexivity.
      * rewrite (key_eqb_neq _ _ Hne). reflexivity.
    + rewrite <- app_assoc. cbn. f_equal. f_equal. apply filter_ext. intros k'.
      rewrite key_mem_app. cbn. rewrite orb_false_r, negb_orb, (key_eqb_sym k' k).
      apply andb_comm.
Qed.

Lemma filter_all {A} (p : A -> bool) (l : list A) :
  (forall x, p x = true) -> filter p l = l.
Proof.
  intros H. induction l as [|x l IH]; cbn; [reflexivity|].
  rewrite H, IH. reflexivity.
Qed.

(** X3: the list the deduplication returns carries the distinct URLs of
    its input in the order of their first occurrence, so it has as many
    entries as the input has distinct URLs. *)
Theorem unique_links_order (links out : list link) :
  unique_links links = Return out ->
  map url_key out = map Some (first_occurrences (link_keys links)) /\
  length out = length (first_occurrences (link_keys links)).
Proof.
  unfold unique_links. destruct (dict_comprehension links []) as [d|e] eqn:E;
    cbn; [|discriminate].
  intros [= <-].
  destruct (dict_comprehension_spec links [] d E (NoDup_nil _) (Forall_nil _))
    as [_ [Hwk _]].
  pose proof (dict_comprehension_keys links [] d E) as Hkeys. cbn in Hkeys.
  rewrite filter_all in Hkeys by reflexivity.
  split.
  - rewrite well_keyed_url_keys by exact Hwk. rewrite Hkeys. reflexivity.
  - rewrite <- Hkeys. rewrite !length_map. reflexivity.
Qed.

Lemma dict_comprehension_distinct (links : list link) :
  forall d,
    (forall l, In l links -> url_key l <> None) ->
    NoDup (map fst d ++ link_keys links) ->
    exists d', dict_comprehension links d = Return d' /\
               map snd d' = map snd d ++ links.
Proof.
  induction links as [|l rest IH]; cbn; intros d Hh Hnd.
  - exists d. rewrite app_nil_r. auto.
  - unfold link_keys in Hnd. cbn in Hnd. fold (link_keys rest) in Hnd.
    pose proof (Hh l (or_introl eq_refl)) as Hl. unfold url_key in *.
    destruct (hash_key (url l)) as [k|] eqn:Hk; [|congruence].
    cbn in Hnd.
    assert (Hnotin : ~ In k (map fst d)).
    { intros Hin. apply NoDup_remove_2 in Hnd. apply Hnd.
      apply in_or_app. left. exact Hin. }
    rewrite (dict_setitem_new k l d Hnotin).
    destruct (IH (d ++ [(k, l)])) as [d' [Hd' Hv]].
    + intros l' Hl'. apply Hh. right. exact Hl'.
    + rewrite map_app. cbn. rewrite <- app_assoc. exact Hnd.
    + exists d'. split; [exact Hd'|].
      rewrite Hv, map_app, <- app_assoc. reflexivity.
Qed.

(** X4: on links whose URLs are all hashable and pairwise different the
    deduplication returns the list unchanged. *)
Theorem unique_links_distinct (links : list link) :
  (forall l, In l links -> url_key l <> None) ->
  NoDup (link_keys links) ->
  unique_links links = Return links.
Proof.
  intros Hh Hnd.
  destruct (dict_comprehension_distinct links [] Hh Hnd) as [d' [Hd' Hv]].
  unfold unique_links. rewrite Hd'. cbn. rewrite Hv. reflexivity.
Qed.

Lemma dict_comprehension_unhashable (links : list link) :
  forall d,
    (exists l, In l links /\ url_key l = None) ->
    dict_comprehension links d = Raise TypeError.
Proof.
  induction links as [|l0 rest IH]; cbn; intros d [l [Hin Hl]]; [contradiction|].
  destruct (hash_key (url l0)) as [k|] eqn:Hk; [|reflexivity].
  destruct Hin as [<-|Hin]; [unfold url_key in Hl; congruence|].
  apply IH. exists l. auto.
Qed.

Lemma dict_comprehension_raises (links : list link) :
  forall d e, dict_comprehension links d = Raise e ->
              e = TypeError /\ exists l, In l links /\ url_key l = None.
Proof.
  induction links as [|l0 rest IH]; cbn; intros d e H; [discriminate|].
  destruct (hash_key (url l0)) as [k|] eqn:Hk.
  - destruct (IH _ _ H) as [He [l [Hin Hl]]]. split; [exact He|].
    exists l. auto.
  - injection H as <-. split; [reflexivity|]. exists l0. auto.
Qed.

(** X5: the deduplication raises exactly when some link has a list or an
    object as its URL, and what it raises then is [TypeError]; with
    [None], booleans, numbers and strings as URLs it returns. *)
Theorem unique_links_unhashable (links : list link) :
  (forall e, unique_links links = Raise e <->
             e = TypeError /\
             exists l, In l links /\
                       match url l with PList _ | PDict _ => True | _ => False end) /\
  ((forall l, In l links ->
      match url l with PList _ | PDict _ => False | _ => True end) ->
   exists out, unique_links links = Return out).
Proof.
  assert (Hu : forall l, url_key l = None <->
                 match url l with PList _ | PDict _ => True | _ => False end).
  { intros l. unfold url_key. destruct (url l); cbn; split;
      intros H; try discriminate; try contradiction; auto. }
  split.
  - intros e. unfold unique_links. split.
    + destruct (dict_comprehension links []) as [d|e0] eqn:E; cbn; [discriminate|].
      intros [= <-]. destruct (dict_comprehension_raises _ _ _ E) as [He [l [Hin Hl]]].
      split; [exact He|]. exists l. split; [exact Hin | apply Hu; exact Hl].
    + intros [-> [l [Hin Hl]]].
      rewrite (dict_comprehension_unhashable links []); [reflexivity|].
      exists l. split; [exact Hin | apply Hu; exact Hl].
  - intros Hall. unfold unique_links.
    destruct (dict_comprehension links []) as [d|e0] eqn:E; cbn; [eauto|].
    destruct (dict_comprehension_raises _ _ _ E) as [_ [l [Hin Hl]]].
    apply Hu in Hl. specialize (Hall l Hin). destruct (url l); contradiction.
Qed.

Lemma unique_links_hashable (links : list link) :
  (forall l, In l links -> url_key l <> None) ->
  exists out, unique_links links = Return out.
Proof.
  intros Hh. unfold unique_links.
  destruct (dict_comprehension links []) as [d|e] eqn:E; cbn; [eauto|].
  destruct (dict_comprehension_raises _ _ _ E) as [_ [l [Hin Hl]]].
  exfalso. exact (Hh l Hin Hl).
Qed.

Lemma unique_links_not_transport (links : list link) :
  unique_links links <> Raise RequestException.
Proof.
  unfold unique_links.
  destruct (dict_comprehension links []) as [d|e] eqn:E; cbn; [discriminate|].
  intros [= ->]. exact (dict_comprehension_not_transport links [] E).
Qed.

Section FinderDedupRuns.

Variable cfg : config.
Variable w : world.

(** C1 (as the code has it): for every provider answer the finder gets
    to, after any number of transport failures that the retry limit and
    the stack allow, and for the links [links] of that answer in the
    provider's order: every list the finder returns holds no URL twice,
    holds nothing but entries of [links], holds each URL of [links]
    exactly once, and for each URL holds the LAST entry of [links] that
    carries it; and the finder does return a list when every URL is
    hashable. *)
Theorem search_dedup_last_seen (query : pystr) (retry_count : Z)
  (t : list event) (k : nat) (search_results : pyvalue) (links : list link) :
  (forall i, (i < k)%nat ->
     requests_get w query (SEARCH_RESULT_COUNT cfg) (search_requests t + i)
     = Raise RequestException) ->
  requests_get w query (SEARCH_RESULT_COUNT cfg) (search_requests t + k)
    = Return search_results ->
  build_links search_results = Return links ->
  retry_count + Z.of_nat k < SEARCH_RETRY_LIMIT cfg ->
  (k <= recursion_depth w)%nat ->
  (forall out t',
     search_alternative_sources cfg w query retry_count t = (Return out, t') ->
     NoDup (map url_key out) /\
     incl out links /\
     each_url_once links out /\
     last_seen_kept links out) /\
  ((forall l, In l links -> url_key l <> None) ->
   exists out,
     search_alternative_sources cfg w query retry_count t =
       (Return out,
        t ++ failed_attempts cfg query k
          ++ [SearchRequest query (SEARCH_RESULT_COUNT cfg)])).
Proof.
  intros Hfail Hreq Hlinks Hlt Hk.
  assert (Ha : attempt cfg w query (search_requests t + k) = unique_links links).
  { unfold attempt. rewrite Hreq. cbn. rewrite Hlinks. reflexivity. }
  pose proof (search_after_failures cfg w query retry_count t k _
                Hfail Ha (unique_links_not_transport links) Hlt Hk) as Hs.
  split.
  - intros out t' H. rewrite Hs in H. injection H as Hu _.
    destruct (unique_links_spec links out Hu) as [Hnd [Hincl [Honce [Hlast _]]]].
    auto.
  - intros Hh. destruct (unique_links_hashable links Hh) as [out Hu].
    exists out. rewrite Hs, Hu. reflexivity.
Qed.

End FinderDedupRuns.

Section FinderEdges.

Variable cfg : config.
Variable w : world.

(** X6: an answer object without [webPages], or whose [webPages] object
    has no [value], is an answer with no results: with a retry left the
    finder returns the empty list after that one request, without error
    and without retrying. *)
Theorem search_answer_without_results (query : pystr) (retry_count : Z)
  (t : list event) (d : list (pystr * pyvalue)) :
  retry_count < SEARCH_RETRY_LIMIT cfg ->
  requests_get w query (SEARCH_RESULT_COUNT cfg) (search_requests t) = Return (PDict d) ->
  dict_lookup (lit "webPages") d = None \/
  (exists d2, dict_lookup (lit "webPages") d = Some (PDict d2) /\
              dict_lookup (lit "value") d2 = None) ->
  search_alternative_sources cfg w query retry_count t =
    (Return [], t ++ [SearchRequest query (SEARCH_RESULT_COUNT cfg)]).
Proof.
  intros Hlt Hreq Hshape. rewrite search_unfold.
  destruct (Z_ge_lt_dec retry_count (SEARCH_RETRY_LIMIT cfg)); [lia|].
  unfold search_once, build_links, provider_items. rewrite Hreq.
  cbn [rbind py_get].
  destruct Hshape as [-> | [d2 [-> Hv]]]; cbn [rbind py_get py_iter];
    [|rewrite Hv]; reflexivity.
Qed.

End FinderEdges.

(** ** More on the summarizer *)

Section SummarizerEdges.

Variable cfg : config.
Variable w : world.

Lemma model_summary_returns (text s : pystr) :
  model_summary cfg w text = Return s <->
  exists response content,
    openai_create w (lit "Summarize and analyze: " ++ text) (MAX_TOKENS cfg)
      = Return response /\
    message_content response = Return (PStr content) /\
    s = strip content.
Proof.
  unfold model_summary. split.
  - destruct (openai_create w _ _) as [response|e]; cbn; [|discriminate].
    destruct (message_content response) as [content|e] eqn:Hc; cbn; [|discriminate].
    destruct content as [| | |c| |]; cbn; try discriminate.
    intros [= <-]. exists response, c. auto.
  - intros [response [content [-> [Hc ->]]]]. cbn. rewrite Hc. reflexivity.
Qed.

(** X7: [summarize_text] returns a summary exactly when the completion
    call returns an answer whose first choice holds a message with a
    string content that is not blank; the summary is that content
    trimmed, and the only event is the one completion call. *)
Theorem summarize_text_returns_iff (text s : pystr) (t t' : list event) :
  summarize_text cfg w text t = (Return s, t') <->
  (exists response content,
     openai_create w (lit "Summarize and analyze: " ++ text) (MAX_TOKENS cfg)
       = Return response /\
     message_content response = Return (PStr content) /\
     s = strip content /\ s <> []) /\
  t' = t ++ [ChatCompletion (lit "Summarize and analyze: " ++ text) (MAX_TOKENS cfg)].
Proof.
  rewrite summarize_text_eq. cbn zeta. split.
  - destruct (model_summary cfg w text) as [[|c0 s0]|e] eqn:E; try discriminate.
    intros [= <- <-]. split; [|reflexivity].
    apply model_summary_returns in E. destruct E as [response [content [Hr [Hc Hs]]]].
    exists response, content. repeat split; try assumption. discriminate.
  - intros [[response [content [Hr [Hc [Hs Hne]]]]] ->].
    assert (E : model_summary cfg w text = Return s).
    { apply model_summary_returns. eauto. }
    rewrite E. destruct s; [congruence | reflexivity].
Qed.

(** X8: whatever happens, [summarize_text] makes exactly one completion
    call, with the prompt "Summarize and analyze: " followed by the text
    and with [MAX_TOKENS], and no search request; it writes its error log
    exactly when it raises. *)
Theorem summarize_text_one_call (text : pystr) (t : list event) :
  exists r log,
    summarize_text cfg w text t =
      (r, t ++ ChatCompletion (lit "Summarize and analyze: " ++ text) (MAX_TOKENS cfg)
               :: log) /\
    log = match r with
          | Return _ => []
          | Raise _ => [Log ERROR GptSummarizationError]
          end /\
    completion_calls log = 0%nat /\ search_requests log = 0%nat.
Proof.
  rewrite summarize_text_eq. cbn zeta.
  destruct (model_summary cfg w text) as [[|c0 s0]|e];
    eexists; eexists; (split; [rewrite <- ?app_assoc; reflexivity|]);
    repeat split.
Qed.

(** X9: an exception of the completion call, or of reading the answer,
    leaves [summarize_text] as the same exception: [KeyError] for an
    answer object without [choices], [IndexError] for an empty [choices]
    list, [AttributeError] for a content that is not a string. *)
Theorem summarize_text_reraises (text : pystr) (t : list event) :
  (forall e,
     openai_create w (lit "Summarize and analyze: " ++ text) (MAX_TOKENS cfg) = Raise e ->
     fst (summarize_text cfg w text t) = Raise e) /\
  (forall response e,
     openai_create w (lit "Summarize and analyze: " ++ text) (MAX_TOKENS cfg)
       = Return response ->
     message_content response = Raise e ->
     fst (summarize_text cfg w text t) = Raise e) /\
  (forall d,
     dict_lookup (lit "choices") d = None ->
     message_content (PDict d) = Raise KeyError) /\
  (forall d,
     dict_lookup (lit "choices") d = Some (PList []) ->
     message_content (PDict d) = Raise IndexError) /\
  (forall response content,
     openai_create w (lit "Summarize and analyze: " ++ text) (MAX_TOKENS cfg)
       = Return response ->
     message_content response = Return content ->
     (forall s, content <> PStr s) ->
     fst (summarize_text cfg w text t) = Raise AttributeError).
Proof.
  repeat split.
  - intros e He. rewrite summarize_text_eq. cbn zeta. unfold model_summary.
    rewrite He. reflexivity.
  - intros response e Hr He. rewrite summarize_text_eq. cbn zeta.
    unfold model_summary. rewrite Hr. cbn. rewrite He. reflexivity.
  - intros d Hd. unfold message_content, py_getitem. rewrite Hd. reflexivity.
  - intros d Hd. unfold message_content, py_getitem. rewrite Hd. reflexivity.
  - intros response content Hr Hc Hs. rewrite summarize_text_eq. cbn zeta.
    unfold model_summary. rewrite Hr. cbn. rewrite Hc. cbn.
    destruct content; try reflexivity. exfalso. exact (Hs s eq_refl).
Qed.

End SummarizerEdges.

(** ** More on the orchestrator: the decision table *)

Lemma strip_empty_iff (s : pystr) : strip s = [] <-> all_space s = true.
Proof.
  split; [|apply strip_all_space].
  intros H. destruct (strip_split s) as [l [r [Hs [Hl Hr]]]].
  rewrite H in Hs. cbn in Hs. rewrite Hs. unfold all_space in *.
  rewrite forallb_app, Hl, Hr. reflexivity.
Qed.

Lemma strip_nonempty_iff (s : pystr) : strip s <> [] <-> all_space s = false.
Proof.
  rewrite strip_empty_iff. destruct (all_space s); split; congruence.
Qed.

Lemma or_empty_id (x : list link) : or_empty x = x.
Proof. destruct x; reflexivity. Qed.

Section Decision.

Variable cfg : config.
Variable w : world.

Lemma analyze_content_body_raises (t : list event) (e : exn) :
  get_json w = Raise e ->
  analyze_content cfg w t =
    (Return (error_body "An unexpected error occurred", 500),
     t ++ [Log ERROR UnhandledError]).
Proof.
  intros Hj. unfold analyze_content, try_except, bind, lift, ret, logging, emit.
  rewrite Hj. reflexivity.
Qed.

Lemma analyze_content_body_not_dict (t : list event) (data : pyvalue) :
  get_json w = Return data ->
  truthy data = true ->
  isinstance_dict data = false ->
  analyze_content cfg w t =
    (Return (error_body "An unexpected error occurred", 500),
     t ++ [Log ERROR UnhandledError]).
Proof.
  intros Hj Ht Hd. unfold analyze_content, try_except, bind, lift, ret, logging, emit.
  rewrite Hj, Ht. destruct data; try discriminate; reflexivity.
Qed.

Lemma analyze_content_not_str (t : list event) (d : list (pystr * pyvalue))
  (v : pyvalue) :
  get_json w = Return (PDict d) ->
  d <> [] ->
  dict_lookup (lit "content") d = Some v ->
  (forall s, v <> PStr s) ->
  analyze_content cfg w t =
    (Return (error_body "An unexpected error occurred", 500),
     t ++ [Log ERROR UnhandledError]).
Proof.
  intros Hj Hd Hc Hv.
  unfold analyze_content, try_except, bind, lift, ret, logging, emit, preprocess_text.
  rewrite Hj. destruct d as [|kv d]; [congruence|].
  cbn [truthy negb py_get rbind]. rewrite Hc.
  destruct v; try reflexivity. exfalso. exact (Hv s eq_refl).
Qed.

(** Every call of the handler takes one of the paths of [handled]. *)
Lemma analyze_content_handled (t : list event) :
  handled cfg w t (analyze_content cfg w t).
Proof.
  destruct (get_json w) as [data|e] eqn:Hj.
  2:{ rewrite (analyze_content_body_raises t e Hj). eapply handled_body_raises, Hj. }
  destruct (truthy data) eqn:Ht.
  2:{ rewrite (analyze_content_falsy cfg w t data Hj Ht).
      eapply handled_body_falsy; eassumption. }
  destruct (isinstance_dict data) eqn:Hd.
  2:{ rewrite (analyze_content_body_not_dict t data Hj Ht Hd).
      eapply handled_body_not_dict; eassumption. }
  destruct data as [| | | | |d]; try discriminate.
  assert (Hne : d <> []) by (destruct d; [discriminate Ht | discriminate]).
  destruct (dict_lookup (lit "content") d) as [v|] eqn:Hc.
  2:{ rewrite (analyze_content_no_content cfg w t d Hj Hne) by (rewrite Hc; exact I).
      apply (handled_no_content cfg w t d Hj Hne). rewrite Hc. exact I. }
  assert (Hv : (exists c, v = PStr c) \/ (forall s, v <> PStr s)).
  { destruct v; try (right; discriminate). left. eauto. }
  destruct Hv as [[c ->] | Hv].
  2:{ rewrite (analyze_content_not_str t d v Hj Hne Hc Hv).
      eapply handled_content_not_str; eassumption. }
  destruct (all_space c) eqn:Hsp.
  { rewrite (analyze_content_no_content cfg w t d Hj Hne)
      by (rewrite Hc; exists c; split; [reflexivity | apply strip_all_space, Hsp]).
    apply (handled_no_content cfg w t d Hj Hne).
    rewrite Hc. exists c. auto. }
  rewrite (analyze_content_validated cfg w t d c Hj Hne Hc)
    by (apply strip_nonempty_iff, Hsp).
  rewrite summarize_text_eq. cbn zeta.
  destruct (model_summary cfg w (strip c)) as [[|c0 s0]|e] eqn:Hm.
  - rewrite <- !app_assoc. cbn [app].
    eapply handled_summarizer_raises with (e := ValueError); eauto.
  - fold (response_metadata d).
    destruct (search_alternative_sources cfg w (c0 :: s0) 0 _) as [[found|e] t2] eqn:Hs.
    + rewrite or_empty_id.
      eapply handled_success; eauto. discriminate.
    + eapply handled_search_raises; eauto. discriminate.
  - rewrite <- !app_assoc. cbn [app].
    eapply handled_summarizer_raises with (e := e); eauto.
Qed.

End Decision.

Lemma falsy_values (data : pyvalue) :
  truthy data = false <->
  data = PNone \/ data = PBool false \/ data = PInt 0 \/
  data = PStr [] \/ data = PList [] \/ data = PDict [].
Proof.
  split.
  - destruct data as [|b|z|s|l|d]; cbn; intros H; auto.
    + destruct b; [discriminate | auto].
    + destruct (Z.eqb_spec z 0); [subst; auto 6 | discriminate].
    + destruct s; [auto 6 | discriminate].
    + destruct l; [auto 7 | discriminate].
    + destruct d; [auto 8 | discriminate].
  - intros [->|[->|[->|[->|[->| ->]]]]]; reflexivity.
Qed.

Ltac absurd_answer :=
  exfalso;
  match goal with
  | H : error_body _ = error_body _ |- _ => vm_compute in H; discriminate H
  | H : error_body _ = success_body _ _ _ |- _ => vm_compute in H; discriminate H
  | H : success_body _ _ _ = error_body _ |- _ => vm_compute in H; discriminate H
  | H : _ = _ |- _ => discriminate H
  end.

Section DecisionTable.

Variable cfg : config.
Variable w : world.

Lemma summarize_text_model (text summary : pystr) (t : list event) :
  (exists t1, summarize_text cfg w text t = (Return summary, t1)) <->
  model_summary cfg w text = Return summary /\ summary <> [].
Proof.
  rewrite summarize_text_eq. cbn zeta. split.
  - intros [t1 H]. destruct (model_summary cfg w text) as [[|c0 s0]|e];
      try discriminate. injection H as <- _. split; [reflexivity | discriminate].
  - intros [-> Hne]. destruct summary; [congruence|]. eauto.
Qed.

(** X10: the handler never raises: whatever the request and whatever the
    collaborators do, it returns 200 with a summary that is not empty, or
    400 with one of its two validation errors, or 500 with one of its two
    failure errors. *)
Theorem analyze_content_always_answers (t : list event) :
  exists body status t',
    analyze_content cfg w t = (Return (body, status), t') /\
    ((status = 200 /\
      exists summary metadata sources,
        body = success_body summary metadata sources /\ summary <> []) \/
     (status = 400 /\
      (body = error_body "Invalid or missing JSON body" \/
       body = error_body "No content provided")) \/
     (status = 500 /\
      (body = error_body "Failed to summarize content" \/
       body = error_body "An unexpected error occurred"))).
Proof.
  destruct (analyze_content_handled cfg w t);
    eexists; eexists; eexists; (split; [reflexivity|]); eauto 10.
Qed.

(** X11: a request answered with 400 has caused no call and no log: the
    trace is what it was. *)
Theorem analyze_rejection_calls_nothing (t t' : list event) (body : pyvalue) :
  analyze_content cfg w t = (Return (body, 400), t') ->
  t' = t.
Proof.
  intros H. pose proof (analyze_content_handled cfg w t) as Hh.
  rewrite H in Hh. inversion Hh; subst; reflexivity.
Qed.

(** X12: the answer 400 "Invalid or missing JSON body" is given exactly
    when [get_json] returns [None], [False], [0], the empty string, the
    empty list or the empty object. *)
Theorem analyze_invalid_body_iff (t : list event) :
  (exists t', analyze_content cfg w t =
                (Return (error_body "Invalid or missing JSON body", 400), t')) <->
  (exists data,
     get_json w = Return data /\
     (data = PNone \/ data = PBool false \/ data = PInt 0 \/
      data = PStr [] \/ data = PList [] \/ data = PDict [])).
Proof.
  split.
  - intros [t' H]. pose proof (analyze_content_handled cfg w t) as Hh.
    rewrite H in Hh. inversion Hh; subst; try absurd_answer.
    exists data. split; [assumption | apply falsy_values; assumption].
  - intros [data [Hj Hd]]. exists t.
    apply analyze_content_falsy with (data := data); [exact Hj|].
    apply falsy_values. exact Hd.
Qed.

(** X13: the answer 400 "No content provided" is given exactly when the
    body is a non-empty object whose [content] is absent or is a string
    of whitespace only (the empty string included). *)
Theorem analyze_no_content_iff (t : list event) :
  (exists t', analyze_content cfg w t =
                (Return (error_body "No content provided", 400), t')) <->
  (exists d,
     get_json w = Return (PDict d) /\ d <> [] /\
     (dict_lookup (lit "content") d = None \/
      exists c, dict_lookup (lit "content") d = Some (PStr c) /\ all_space c = true)).
Proof.
  split.
  - intros [t' H]. pose proof (analyze_content_handled cfg w t) as Hh.
    rewrite H in Hh. inversion Hh; subst; try absurd_answer.
    exists d. repeat split; try assumption.
    destruct (dict_lookup (lit "content") d) as [v|]; [|auto].
    right. match goal with Hc : exists c, _ |- _ => destruct Hc as [c [-> Hs]] end.
    eauto.
  - intros [d [Hj [Hne Hc]]]. exists t.
    apply analyze_content_no_content with (d := d); [exact Hj | exact Hne |].
    destruct Hc as [-> | [c [-> Hs]]]; [exact I|].
    exists c. split; [reflexivity | apply strip_all_space, Hs].
Qed.

(** X14: the answer 500 "An unexpected error occurred" is given exactly
    when [get_json] raises, or returns something true that is not an
    object (a non-empty list or string, a non-zero number, [True]), or
    returns an object whose [content] is present and not a string. *)
Theorem analyze_unexpected_iff (t : list event) :
  (exists t', analyze_content cfg w t =
                (Return (error_body "An unexpected error occurred", 500), t')) <->
  ((exists e, get_json w = Raise e) \/
   (exists data, get_json w = Return data /\ truthy data = true /\
                 isinstance_dict data = false) \/
   (exists d v, get_json w = Return (PDict d) /\ d <> [] /\
                dict_lookup (lit "content") d = Some v /\
                forall s, v <> PStr s)).
Proof.
  split.
  - intros [t' H]. pose proof (analyze_content_handled cfg w t) as Hh.
    rewrite H in Hh. inversion Hh; subst; try absurd_answer; eauto 10.
  - intros [[e He] | [[data [Hj [Ht Hd]]] | [d [v [Hj [Hne [Hc Hv]]]]]]];
      eexists.
    + eapply analyze_content_body_raises, He.
    + eapply analyze_content_body_not_dict; eassumption.
    + eapply analyze_content_not_str; eassumption.
Qed.

(** X15: the handler answers 200 exactly when the body is an object
    whose [content] is a string with a character that is not whitespace
    and [summarize_text] returns for the trimmed content; the answer then
    carries that summary. *)
Theorem analyze_success_iff (t : list event) (summary : pystr) :
  (exists metadata sources t',
     analyze_content cfg w t =
       (Return (success_body summary metadata sources, 200), t')) <->
  (exists d c t1,
     get_json w = Return (PDict d) /\
     dict_lookup (lit "content") d = Some (PStr c) /\
     all_space c = false /\
     summarize_text cfg w (strip c) t = (Return summary, t1)).
Proof.
  split.
  - intros [metadata [sources [t' H]]].
    pose proof (analyze_content_handled cfg w t) as Hh.
    rewrite H in Hh.
    inversion Hh; subst; try absurd_answer;
      match goal with
      | Hm : model_summary cfg w (strip ?c) = Return summary,
        Hs : summary <> [] |- _ =>
          destruct (proj2 (summarize_text_model (strip c) summary t) (conj Hm Hs))
            as [t1 Ht1];
          exists d, c, t1; auto
      end.
  - intros [d [c [t1 [Hj [Hc [Hsp Hsum]]]]]].
    assert (Hne : d <> []) by (intros ->; discriminate Hc).
    rewrite (analyze_content_validated cfg w t d c Hj Hne Hc)
      by (apply strip_nonempty_iff, Hsp).
    rewrite Hsum. cbn zeta.
    destruct (search_alternative_sources cfg w summary 0 t1) as [[found|e] t2];
      eauto.
Qed.

End DecisionTable.

(** ** The calls one request causes *)

Lemma completion_calls_app (a b : list event) :
  completion_calls (a ++ b) = (completion_calls a + completion_calls b)%nat.
Proof.
  unfold completion_calls. rewrite filter_app, length_app. reflexivity.
Qed.

Lemma finder_events_no_completion (cfg : config) (query : pystr) (l : list event) :
  Forall (finder_event cfg query) l -> completion_calls l = 0%nat.
Proof.
  induction 1 as [|e l He Hl IH]; [reflexivity|].
  destruct e; cbn in *; [contradiction | exact IH | exact IH].
Qed.

Section Calls.

Variable cfg : config.
Variable w : world.

Lemma search_run_events (depth : nat) (query : pystr) (retry_count : Z)
  (t : list event) (final : result (list link) * list event) :
  search_run cfg w query depth retry_count t final ->
  exists t_new, snd final = t ++ t_new /\ Forall (finder_event cfg query) t_new.
Proof.
  induction 1 as [d r t Hge | d r t final Hlt E Hrun IH | r t Hlt E
                 | d r t res Hlt E Hne].
  - exists [Log ERROR SearchRetryLimitReached]. split; [reflexivity|].
    constructor; [cbn; auto | constructor].
  - destruct IH as [t_new [Ht Hall]].
    exists ([SearchRequest query (SEARCH_RESULT_COUNT cfg);
             Log WARNING SearchRequestFailed] ++ t_new).
    split; [rewrite Ht, <- app_assoc; reflexivity|].
    cbn [app]. constructor; [cbn; auto|]. constructor; [cbn; auto | exact Hall].
  - exists [SearchRequest query (SEARCH_RESULT_COUNT cfg);
            Log WARNING SearchRequestFailed].
    split; [reflexivity|].
    constructor; [cbn; auto|]. constructor; [cbn; auto | constructor].
  - exists [SearchRequest query (SEARCH_RESULT_COUNT cfg)].
    split; [reflexivity|]. constructor; [cbn; auto | constructor].
Qed.

(** X16: all the finder does to the world is to send search requests
    for the query it was given, with the configured result count, and to
    write its own two logs; it never calls the completion API and never
    touches what was recorded before. *)
Theorem search_only_searches (query : pystr) (retry_count : Z) (t t' : list event)
  (r : result (list link)) :
  search_alternative_sources cfg w query retry_count t = (r, t') ->
  exists t_new,
    t' = t ++ t_new /\
    Forall (finder_event cfg query) t_new /\
    completion_calls t_new = 0%nat.
Proof.
  intros H. pose proof (search_runs cfg w query retry_count t) as Hrun.
  rewrite H in Hrun.
  destruct (search_run_events _ _ _ _ _ Hrun) as [t_new [Ht Hall]].
  exists t_new. repeat split; [exact Ht | exact Hall |].
  exact (finder_events_no_completion cfg query t_new Hall).
Qed.

Lemma search_from_trace (query : pystr) (t t2 : list event) (r : result (list link)) :
  search_alternative_sources cfg w query 0 t = (r, t2) ->
  exists t_new,
    t2 = t ++ t_new /\
    Forall (finder_event cfg query) t_new /\
    Z.of_nat (search_requests t_new) <= Z.max 0 (SEARCH_RETRY_LIMIT cfg).
Proof.
  intros H. pose proof (search_runs cfg w query 0 t) as Hrun.
  rewrite H in Hrun.
  destruct (search_run_events _ _ _ _ _ Hrun) as [t_new [Ht Hall]].
  destruct (search_run_bound cfg w _ _ _ _ _ Hrun) as [t_new' [Ht' Hb]].
  cbn in Ht, Ht'. rewrite Ht in Ht'. apply app_inv_head in Ht'. subst t_new'.
  exists t_new. repeat split; [exact Ht | exact Hall | lia].
Qed.

Lemma finder_events_split (query : pystr) (l a b : list event) (q : pystr) (c : Z) :
  Forall (finder_event cfg query) l ->
  l = a ++ SearchRequest q c :: b ->
  completion_calls a = 0%nat /\ q = query /\ c = SEARCH_RESULT_COUNT cfg.
Proof.
  intros Hall ->. apply Forall_app in Hall. destruct Hall as [Ha Hb].
  split; [exact (finder_events_no_completion cfg query a Ha)|].
  inversion Hb as [|? ? He _]; subst. exact He.
Qed.

(** X17: one request causes at most one completion call and at most
    [SEARCH_RETRY_LIMIT] search requests; the handler only appends to the
    trace; every search request comes after the completion call, carries
    the configured result count, and its query is the summary of the 200
    answer. *)
Theorem analyze_content_calls (t : list event) :
  exists r new,
    analyze_content cfg w t = (r, t ++ new) /\
    (completion_calls new <= 1)%nat /\
    Z.of_nat (search_requests new) <= Z.max 0 (SEARCH_RETRY_LIMIT cfg) /\
    (forall a q c b,
       new = a ++ SearchRequest q c :: b ->
       completion_calls a = 1%nat /\
       c = SEARCH_RESULT_COUNT cfg /\
       exists metadata sources,
         r = Return (success_body q metadata sources, 200)).
Proof.
  pose proof (analyze_content_handled cfg w t) as Hh.
  destruct (analyze_content cfg w t) as [r t'].
  inversion Hh; subst.
  1-6: match goal with
       | |- exists r new, (_, ?t ++ ?l) = _ /\ _ => eexists; exists l
       | |- exists r new, (_, ?t) = _ /\ _ => eexists; exists []
       end;
       (split; [rewrite ?app_nil_r; reflexivity|]);
       cbn; (split; [lia|]); (split; [lia|]);
       intros a q c0 b Heq; exfalso;
       destruct a as [|? [|? [|? [|? ?]]]]; cbn in Heq; discriminate Heq.
  - match goal with
    | Hs : search_alternative_sources _ _ _ _ _ = _ |- _ =>
        destruct (search_from_trace _ _ _ _ Hs) as [t_new [-> [Hall Hb]]]
    end.
    exists (Return (success_body summary (response_metadata d) found, 200)).
    exists (ChatCompletion (lit "Summarize and analyze: " ++ strip c) (MAX_TOKENS cfg)
              :: t_new).
    split; [rewrite <- app_assoc; reflexivity|].
    split; [unfold completion_calls; cbn; fold (completion_calls t_new);
            rewrite (finder_events_no_completion cfg summary t_new Hall); lia|].
    split; [exact Hb|].
    intros a q c0 b Heq. destruct a as [|x a]; [discriminate Heq|].
    injection Heq as <- Heq.
    destruct (finder_events_split summary t_new a b q c0 Hall Heq) as [Ha [-> ->]].
    split; [unfold completion_calls; cbn; fold (completion_calls a); lia|].
    split; [reflexivity|]. eauto.
  - match goal with
    | Hs : search_alternative_sources _ _ _ _ _ = _ |- _ =>
        destruct (search_from_trace _ _ _ _ Hs) as [t_new [-> [Hall Hb]]]
    end.
    exists (Return (success_body summary (response_metadata d) [], 200)).
    exists (ChatCompletion (lit "Summarize and analyze: " ++ strip c) (MAX_TOKENS cfg)
              :: t_new ++ [Log ERROR ErrorFetchingSources]).
    split; [rewrite <- !app_assoc; reflexivity|].
    change (ChatCompletion (lit "Summarize and analyze: " ++ strip c) (MAX_TOKENS cfg)
              :: t_new ++ [Log ERROR ErrorFetchingSources])
      with ([ChatCompletion (lit "Summarize and analyze: " ++ strip c) (MAX_TOKENS cfg)]
              ++ t_new ++ [Log ERROR ErrorFetchingSources]).
    split; [rewrite !completion_calls_app,
              (finder_events_no_completion cfg summary t_new Hall); cbn; lia|].
    split; [rewrite !search_requests_app; cbn; lia|].
    cbn [app]. intros a q c0 b Heq. destruct a as [|x a]; [discriminate Heq|].
    injection Heq as <- Heq.
    assert (Hsplit : exists b', t_new = a ++ SearchRequest q c0 :: b').
    { destruct (List.app_eq_app _ _ _ _ Heq) as [l2 [[Ea Eb] | [Ea Eb]]].
      - destruct l2 as [|y l2]; cbn in Eb.
        + discriminate Eb.
        + injection Eb as <- Eb. exists l2. exact Ea.
      - destruct l2 as [|y l2]; cbn in Eb.
        + discriminate Eb.
        + injection Eb as _ Eb. destruct l2; discriminate Eb. }
    destruct Hsplit as [b' Hb'].
    destruct (finder_events_split summary t_new a b' q c0 Hall Hb') as [Ha [-> ->]].
    split; [unfold completion_calls; cbn; fold (completion_calls a); lia|].
    split; [reflexivity|]. eauto.
Qed.

End Calls.

Section Composition.

Variable cfg : config.
Variable w : world.

(** X18: on a request that passes validation, when [summarize_text]
    returns a summary and the finder, asked for that summary from retry
    count 0, returns a list, the answer is 200 and carries the summary,
    the finder's list as it is, and as metadata the request's [metadata]
    when that is an object and the empty object when it is absent or
    anything else; the trace is the finder's. *)
Theorem analyze_content_success (t t1 t2 : list event)
  (d : list (pystr * pyvalue)) (c summary : pystr) (found : list link) :
  get_json w = Return (PDict d) ->
  dict_lookup (lit "content") d = Some (PStr c) ->
  all_space c = false ->
  summarize_text cfg w (strip c) t = (Return summary, t1) ->
  search_alternative_sources cfg w summary 0 t1 = (Return found, t2) ->
  analyze_content cfg w t =
    (Return (success_body summary
               match dict_lookup (lit "metadata") d with
               | Some (PDict m) => PDict m
               | _ => PDict []
               end
               found, 200), t2).
Proof.
  intros Hj Hc Hsp Hsum Hsearch.
  assert (Hne : d <> []) by (intros ->; discriminate Hc).
  rewrite (analyze_content_validated cfg w t d c Hj Hne Hc)
    by (apply strip_nonempty_iff, Hsp).
  rewrite Hsum. cbn zeta. rewrite Hsearch, or_empty_id.
  destruct (dict_lookup (lit "metadata") d) as [[| | | | |m]|]; reflexivity.
Qed.

End Composition.

(** ** The text normalizer *)

(** X19: [preprocess_text] returns exactly on strings and raises
    [AttributeError] on every other value; applied to its own result it
    changes nothing; its result is empty exactly when the string holds
    nothing but whitespace. *)
Theorem preprocess_text_total_on_str (v : pyvalue) :
  (forall s, v = PStr s ->
     exists out, preprocess_text v = Return out /\
                 preprocess_text (PStr out) = Return out /\
                 (out = [] <-> all_space s = true)) /\
  ((forall s, v <> PStr s) -> preprocess_text v = Raise AttributeError).
Proof.
  split.
  - intros s ->. exists (strip s). cbn. rewrite strip_idempotent.
    repeat split; try apply strip_empty_iff.
  - intros Hv. destruct v; try reflexivity. exfalso. exact (Hv s eq_refl).
Qed.

(** ** Start-up *)

(** X20: importing the module fails exactly when reading the
    configuration raises something other than [FileNotFoundError] (the
    same exception leaves the module), or when the file holds a document
    that is not a mapping, an empty file included ([AttributeError]). *)
Theorem startup_fails_iff (o : load_outcome) (openai_api_key bing_api_key : pystr)
  (e : exn) :
  fst (startup o openai_api_key bing_api_key) = Raise e <->
  o = LoadRaises e \/
  (exists document, o = Loaded document /\ isinstance_dict document = false /\
                    e = AttributeError).
Proof.
  unfold startup. split.
  - destruct o as [document| |e0]; cbn.
    + destruct document; cbn; try discriminate;
        intros [= <-]; right; eexists; repeat split; reflexivity.
    + discriminate.
    + intros [= <-]. left. reflexivity.
  - intros [-> | [document [-> [Hd ->]]]]; cbn; [reflexivity|].
    destruct document; try discriminate; reflexivity.
Qed.

(** X21: when the configuration file is missing, or holds a mapping,
    start-up succeeds; each of the three settings is the value the
    mapping holds under its key and otherwise the default (100, 5, 3);
    with no file, or with none of the three keys, the settings are
    those of [default_config]. *)
Theorem startup_settings (o : load_outcome) (d : list (pystr * pyvalue))
  (openai_api_key bing_api_key : pystr) :
  (o = FileNotFound /\ d = []) \/ o = Loaded (PDict d) ->
  fst (startup o openai_api_key bing_api_key) =
    Return (setting_or d "max_tokens" 100,
            setting_or d "search_result_count" 5,
            setting_or d "search_retry_limit" 3) /\
  (dict_lookup (lit "max_tokens") d = None ->
   dict_lookup (lit "search_result_count") d = None ->
   dict_lookup (lit "search_retry_limit") d = None ->
   exists settings,
     fst (startup o openai_api_key bing_api_key) = Return settings /\
     settings_config settings = Some default_config).
Proof.
  intros Ho.
  assert (H : fst (startup o openai_api_key bing_api_key) =
              Return (setting_or d "max_tokens" 100,
                      setting_or d "search_result_count" 5,
                      setting_or d "search_retry_limit" 3)).
  { unfold startup, setting_or.
    destruct Ho as [[-> ->] | ->]; reflexivity. }
  split; [exact H|].
  intros H1 H2 H3. eexists. split; [exact H|].
  unfold setting_or. rewrite H1, H2, H3. reflexivity.
Qed.

(** ** The further theorems at concrete requests *)

Lemma search_answer_after_failures_witness :
  search_alternative_sources default_config (working_world PNone 2 dup_items)
    (lit "news") 0 [] =
    (Return dup_out,
     [] ++ failed_attempts default_config (lit "news") 2
        ++ [SearchRequest (lit "news") (SEARCH_RESULT_COUNT default_config)]) /\
  search_requests
    (failed_attempts default_config (lit "news") 2
       ++ [SearchRequest (lit "news") (SEARCH_RESULT_COUNT default_config)]) = 3%nat.
Proof.
  apply (search_answer_after_failures default_config
           (working_world PNone 2 dup_items) (lit "news") 0 [] 2 (Return dup_out)).
  - intros i Hi. destruct i as [|[|i]]; [reflexivity | reflexivity | lia].
  - vm_compute. reflexivity.
  - discriminate.
  - cbn. lia.
  - apply Nat.leb_le. reflexivity.
Defined.

Lemma search_exhausts_retries_witness :
  search_alternative_sources default_config (search_down_world PNone)
    (lit "news") 0 [] =
    (Return [],
     [] ++ failed_attempts default_config (lit "news") 3
        ++ [Log ERROR SearchRetryLimitReached]) /\
  search_requests
    (failed_attempts default_config (lit "news") 3
       ++ [Log ERROR SearchRetryLimitReached]) = 3%nat.
Proof.
  apply (search_exhausts_retries default_config (search_down_world PNone)
           (lit "news") 0 []).
  - intros i Hi. reflexivity.
  - apply Nat.leb_le. reflexivity.
Defined.

Lemma unique_links_order_witness :
  map url_key dup_out = map Some (first_occurrences (link_keys dup_links)) /\
  length dup_out = length (first_occurrences (link_keys dup_links)).
Proof.
  apply (unique_links_order dup_links dup_out). vm_compute. reflexivity.
Defined.

Lemma unique_links_distinct_witness :
  unique_links distinct_links = Return distinct_links.
Proof.
  apply (unique_links_distinct distinct_links).
  - intros l [<-|[<-|[]]]; discriminate.
  - vm_compute. constructor.
    + intros [H|[]]. discriminate H.
    + constructor; [intros [] | constructor].
Defined.

Lemma search_answer_without_results_witness :
  search_alternative_sources default_config
    (search_answer_world PNone (PDict [])) (lit "news") 0 [] =
    (Return [], [] ++ [SearchRequest (lit "news") (SEARCH_RESULT_COUNT default_config)]).
Proof.
  apply (search_answer_without_results default_config
           (search_answer_world PNone (PDict [])) (lit "news") 0 [] []).
  - reflexivity.
  - reflexivity.
  - left. reflexivity.
Defined.

Lemma analyze_rejection_calls_nothing_witness :
  analyze_content default_config
    (working_world (PDict [(lit "content", PStr (lit "   "))]) 0 dup_items) [] =
    (Return (error_body "No content provided", 400), []) /\
  @nil event = [].
Proof.
  split; [vm_compute; reflexivity|].
  apply (analyze_rejection_calls_nothing default_config
           (working_world (PDict [(lit "content", PStr (lit "   "))]) 0 dup_items)
           [] [] (error_body "No content provided")).
  vm_compute. reflexivity.
Defined.

Lemma search_only_searches_witness :
  exists t_new,
    [SearchRequest (lit "news") 5; Log WARNING SearchRequestFailed;
     SearchRequest (lit "news") 5] = [] ++ t_new /\
    Forall (finder_event default_config (lit "news")) t_new /\
    completion_calls t_new = 0%nat.
Proof.
  apply (search_only_searches default_config (working_world PNone 1 dup_items)
           (lit "news") 0 [] _ (Return dup_out)).
  vm_compute. reflexivity.
Defined.

Lemma analyze_content_success_witness :
  analyze_content default_config
    (working_world (news_request (PDict [(lit "source", PStr (lit "rss"))]))
       1 dup_items) [] =
    (Return (success_body (lit "X happened.")
               (PDict [(lit "source", PStr (lit "rss"))]) dup_out, 200),
     news_summarized ++
     [SearchRequest (lit "X happened.") 5; Log WARNING SearchRequestFailed;
      SearchRequest (lit "X happened.") 5]).
Proof.
  apply (analyze_content_success default_config
           (working_world (news_request (PDict [(lit "source", PStr (lit "rss"))]))
              1 dup_items)
           [] news_summarized _
           [(lit "content", PStr (lit "  Breaking news about X.  "));
            (lit "metadata", PDict [(lit "source", PStr (lit "rss"))])]
           (lit "  Breaking news about X.  ") (lit "X happened.") dup_out).
  - reflexivity.
  - reflexivity.
  - reflexivity.
  - vm_compute. reflexivity.
  - vm_compute. reflexivity.
Defined.

Lemma startup_settings_witness :
  fst (startup FileNotFound [] (lit "bing-key")) =
    Return (setting_or [] "max_tokens" 100,
            setting_or [] "search_result_count" 5,
            setting_or [] "search_retry_limit" 3) /\
  (dict_lookup (lit "max_tokens") [] = None ->
   dict_lookup (lit "search_result_count") [] = None ->
   dict_lookup (lit "search_retry_limit") [] = None ->
   exists settings,
     fst (startup FileNotFound [] (lit "bing-key")) = Return settings /\
     settings_config settings = Some default_config).
Proof.
  apply (startup_settings FileNotFound [] [] (lit "bing-key")).
  left. split; reflexivity.
Defined.

Example startup_partial_file :
  fst (startup (Loaded (PDict [(lit "search_retry_limit", PInt 7)])) [] []) =
    Return (PInt 100, PInt 5, PInt 7).
Proof. reflexivity. Qed.

Lemma search_dedup_last_seen_witness :
  (forall out t',
     search_alternative_sources default_config (working_world PNone 1 dup_items)
       (lit "news") 0 [] = (Return out, t') ->
     NoDup (map url_key out) /\
     incl out dup_links /\
     each_url_once dup_links out /\
     last_seen_kept dup_links out) /\
  ((forall l, In l dup_links -> url_key l <> None) ->
   exists out,
     search_alternative_sources default_config (working_world PNone 1 dup_items)
       (lit "news") 0 [] =
       (Return out,
        [] ++ failed_attempts default_config (lit "news") 1
           ++ [SearchRequest (lit "news") (SEARCH_RESULT_COUNT default_config)])).
Proof.
  apply (search_dedup_last_seen default_config (working_world PNone 1 dup_items)
           (lit "news") 0 [] 1 (provider_answer dup_items) dup_links).
  - intros i Hi. destruct i as [|i]; [reflexivity | lia].
  - reflexivity.
  - reflexivity.
  - cbn. lia.
  - apply Nat.leb_le. reflexivity.
Defined.


Example analyze_stack_overflow :
  analyze_content patient_config shallow_world [] =
    (Return (success_body (lit "X happened.") (PDict []) [], 200),
     news_summarized ++
     failed_attempts patient_config (lit "X happened.") 3 ++
     [Log ERROR ErrorFetchingSources]).
Proof. vm_compute. reflexivity. Qed.
